(** * tap-exchangerate: the date-window pagination of [tap_exchangerate/__init__.py]

    A shallow embedding of the six functions of the module
    ([as_date], [generate_date_range], [generate_item_pairs],
    [generate_date_pairs], [zip_is_last], [get_exr_timeseries] with its
    nested [get_exr_366_days]) and the properties of the specification
    that concern them.

    Python values that the code inspects at run time are a tagged union
    ([value]); a generator is the trace it leaves when it is consumed to
    the end (the items it yields, then how it stops); an exception is a
    constructor of [exn].  What comes from outside the module -- the
    [datetime] text parser and formatter, [float] on text and on numbers,
    and the remote service behind [requests.get] -- is a parameter of the
    development. *)

From Stdlib Require Import Ascii String QArith_base Qreduction Qround.
From stdpp Require Import base decidable option list numbers strings sorting sets.

Local Open Scope Z_scope.

(** ** Exceptions, results and generators *)

Inductive exn :=
  | ValueError | TypeError | IndexError | KeyError | AttributeError | OverflowError
  | AssertionError | HTTPError | ConnectionError | JSONDecodeError.

Global Instance exn_eq_dec : EqDecision exn.
Proof. solve_decision. Defined.

(** The outcome of evaluating an expression. *)
Inductive result (A : Type) :=
  | Ok (a : A)
  | Raise (e : exn).
Arguments Ok {A} a.
Arguments Raise {A} e.

Global Instance result_ret : MRet result := @Ok.
Global Instance result_bind : MBind result := λ A B f m,
  match m with Ok a => f a | Raise e => Raise e end.

(** A generator, consumed to its end: the items it yielded in order, and
    [None] when it then stopped normally or [Some e] when it raised [e]. *)
Definition gen (A : Type) : Type := list A * option exn.

Definition stop {A} : gen A := ([], None).
Definition raise {A} (e : exn) : gen A := ([], Some e).
Definition yield {A} (a : A) : gen A := ([a], None).

(** [g] followed by [k]: what [k] does happens only if [g] did not raise. *)
Definition andthen {A} (g k : gen A) : gen A :=
  match g.2 with
  | None => (g.1 ++ k.1, k.2)
  | Some e => (g.1, Some e)
  end.

(** Evaluate an expression inside a generator body. *)
Definition eval {A B} (m : result A) (k : A → gen B) : gen B :=
  match m with Ok a => k a | Raise e => raise e end.

Notation "'let!' x ':=' m 'in' k" := (eval m (λ x, k))
  (at level 10, x binder, m at level 100, k at level 200, only parsing).

(** [for x in xs: body x] in a generator body. *)
Fixpoint for_each {A B} (xs : list A) (body : A → gen B) : gen B :=
  match xs with
  | [] => stop
  | x :: xs' => andthen (body x) (for_each xs' body)
  end.

(** ** Dates, datetimes and the values [as_date] inspects *)

(** A [datetime.date] is its proleptic Gregorian ordinal
    ([date.toordinal()]): day 1 is 0001-01-01 and day 3652059 is
    9999-12-31.  A [datetime.datetime] adds the time of day in
    microseconds. *)
Definition MINORDINAL : Z := 1.
Definition MAXORDINAL : Z := 3652059.
Definition DAY_MICROSECONDS : Z := 86400000000.

Record datetime := Datetime { dt_day : Z; dt_time : Z }.

Definition midnight (d : Z) : datetime := Datetime d 0.

Inductive value :=
  | VStr (s : string)
  | VDate (d : Z)
  | VDatetime (dt : datetime)
  | VInt (z : Z)
  | VNone.

Global Instance datetime_eq_dec : EqDecision datetime.
Proof. solve_decision. Defined.
Global Instance value_eq_dec : EqDecision value.
Proof. solve_decision. Defined.

Definition ISO : string := "%Y-%m-%d".

(** [a <= b] on dates: a [date] and a [datetime] do not compare. *)
Definition py_le (a b : value) : result bool :=
  match a, b with
  | VDate x, VDate y => Ok (x <=? y)
  | VDatetime x, VDatetime y =>
      Ok ((dt_day x <? dt_day y) || ((dt_day x =? dt_day y) && (dt_time x <=? dt_time y)))
  | _, _ => Raise TypeError
  end.

(** [(a - b).days]: the whole days of the difference, rounded down. *)
Definition py_sub_days (a b : value) : result Z :=
  match a, b with
  | VDate x, VDate y => Ok (x - y)
  | VDatetime x, VDatetime y =>
      Ok ((dt_day x - dt_day y) + (dt_time x - dt_time y) `div` DAY_MICROSECONDS)
  | _, _ => Raise TypeError
  end.

(** [a + timedelta(days=k)]. *)
Definition py_add_days (a : value) (k : Z) : result value :=
  match a with
  | VDate x =>
      if (MINORDINAL <=? x + k) && (x + k <=? MAXORDINAL)
      then Ok (VDate (x + k)) else Raise OverflowError
  | VDatetime x =>
      if (MINORDINAL <=? dt_day x + k) && (dt_day x + k <=? MAXORDINAL)
      then Ok (VDatetime (Datetime (dt_day x + k) (dt_time x))) else Raise OverflowError
  | _ => Raise TypeError
  end.

(** [range(start, stop, step)]: [count] items from [start], [step] apart. *)
Fixpoint count_from (start step : Z) (count : nat) : list Z :=
  match count with
  | O => []
  | S count' => start :: count_from (start + step) step count'
  end.

Definition py_range (start stop step : Z) : list Z :=
  if 0 <? step then count_from start step (Z.to_nat ((stop - start + step - 1) `div` step))
  else if step <? 0 then count_from start step (Z.to_nat ((start - stop - step - 1) `div` (- step)))
  else [].

(** The days from [x] to [y], both included, walking from [x] toward
[y] (vocabulary for the properties). *)
Definition days_between (x y : Z) : list Z :=
  if decide (x ≤ y) then count_from x 1 (Z.to_nat (y - x + 1))
  else count_from x (-1) (Z.to_nat (x - y + 1)).

(** The ceiling of the exact quotient of [a] by [b]. *)
Definition ceil_div (a b : Z) : Z := - ((- a) `div` b).

(** [a / b] on two integers is a double: the exact quotient rounded to
    the nearest one.  Half the smallest positive double is [2^-1075]; a
    positive quotient of at most that much rounds to zero. *)
Definition UNDERFLOW : Z := 2 ^ 1075.
Arguments UNDERFLOW : simpl never.

Definition rounds_to_zero (a b : Z) : bool :=
  ((0 <? a) && (a * UNDERFLOW <=? b)) || ((a <? 0) && (b <=? a * UNDERFLOW)).

(** [ceil(a / b)] for integers [a], [b] with [b] not zero and [a]
    below [2^53] in size, as are the length of a list and a number of
    days: on these the ceiling of the double is the ceiling of the exact
    quotient, unless the quotient rounds to zero. *)
Definition py_ceil_div (a b : Z) : Z :=
  if rounds_to_zero a b then 0 else ceil_div a b.

(** ** Slices, pairs and the look-ahead tag *)

Section items.
Context {T : Type} `{!EqDecision T}.

(** Every [s+1]-th item, the next one after skipping [c]. *)
Fixpoint every (s c : nat) (l : list T) : list T :=
  match l with
  | [] => []
  | x :: l' =>
      match c with
      | O => x :: every s s l'
      | S c' => every s c' l'
      end
  end.

(** [l[::step]]. *)
Definition slice_step (l : list T) (step : Z) : result (list T) :=
  if step =? 0 then Raise ValueError
  else if 0 <? step then Ok (every (Z.to_nat step - 1) 0 l)
  else Ok (every (Z.to_nat (- step) - 1) 0 (reverse l)).

(** [l[-1]]. *)
Definition item_last (l : list T) : result T :=
  match last l with Some x => Ok x | None => Raise IndexError end.

(** [narrowed_items_with_final] of [generate_item_pairs]. *)
Definition narrowed_items_with_final (all_items : list T) (n : Z) : result (list T) :=
  narrowed_items ← slice_step all_items (py_ceil_div (Z.of_nat (length all_items)) n);
  final ← item_last all_items;
  Ok (narrowed_items ++ (if bool_decide (final ∈ narrowed_items) then [] else [final])).

Definition generate_item_pairs (iterator : gen T) (n : Z) : gen (T * T) :=
  if n =? 0 then stop
  else match iterator.2 with
       | Some e => raise e
       | None =>
           let! with_final := narrowed_items_with_final iterator.1 n in
           (zip with_final (tail with_final), None)
       end.

Fixpoint zip_is_last_loop (current_value : T) (rest : list T) (ending : option exn)
  : gen (T * bool) :=
  match rest with
  | [] =>
      match ending with
      | None => yield (current_value, true)
      | Some e => raise e
      end
  | next_value :: rest' =>
      andthen (yield (current_value, false)) (zip_is_last_loop next_value rest' ending)
  end.

Definition zip_is_last (iterable : gen T) : gen (T * bool) :=
  match iterable.1 with
  | [] => (([], iterable.2) : gen (T * bool))
  | next_value :: rest => zip_is_last_loop next_value rest iterable.2
  end.
End items.

(** ** JSON as [response.json()] returns it

    A number is the value it decodes to, an integer of any size or a
    double. *)

Set Warnings "-register-all".

Inductive json :=
  | JNull
  | JBool (b : bool)
  | JNum (q : Q)
  | JStr (s : string)
  | JArr (items : list json)
  | JObj (fields : list (string * json)).

(** What [requests.get] does: it raises, or it returns a response with a
    status code and a body that decodes as JSON or does not. *)
Inductive http_result :=
  | RequestFailed (e : exn)
  | Response (status : Z) (body : option json).

Record ExchangeRow := { date : string; currency : string; rate : Q }.

Fixpoint dict_get (fields : list (string * json)) (key : string) : option json :=
  match fields with
  | [] => None
  | (k, v) :: fields' => if bool_decide (k = key) then Some v else dict_get fields' key
  end.

Definition is_str (s : string) (v : json) : bool :=
  match v with JStr s' => bool_decide (s' = s) | _ => false end.

Fixpoint has_substring (needle s : string) : bool :=
  String.prefix needle s ||
  match s with
  | EmptyString => false
  | String _ s' => has_substring needle s'
  end.

(** [key in v]. *)
Definition py_contains (key : string) (v : json) : result bool :=
  match v with
  | JObj fields => Ok (bool_decide (is_Some (dict_get fields key)))
  | JArr items => Ok (existsb (is_str key) items)
  | JStr s => Ok (has_substring key s)
  | _ => Raise TypeError
  end.

(** [v[key]] for a text key; the caller has checked [key in v]. *)
Definition py_getitem (v : json) (key : string) : result json :=
  match v with
  | JObj fields => match dict_get fields key with Some x => Ok x | None => Raise KeyError end
  | _ => Raise TypeError
  end.

(** [v.items()]. *)
Definition py_items (v : json) : result (list (string * json)) :=
  match v with
  | JObj fields => Ok fields
  | _ => Raise AttributeError
  end.

(** ** The module, over the library and the remote service *)

(** What the module calls and does not define. *)
Class Runtime := {
  (** [datetime.strptime(text, format)], [None] when the text does not
      match the format. *)
  strptime : string → string → option datetime;
  (** [dt.strftime(format)]. *)
  strftime : datetime → string → string;
  (** [float(text)], [None] when the text is not a number. *)
  float_of_str : string → option Q;
  (** [float(x)] for a number [x]: the nearest double, [None] when [x]
      is an integer too large for a double. *)
  float_of_num : Q → option Q;
  (** The request [get_exr_366_days] sends for its two arguments
      (interpolated into the URL) and what comes back. *)
  requests_get : value → value → http_result;
}.

Section module.
Context `{!Runtime}.

(** [x.strftime(format)]; a date formats as its midnight. *)
Definition py_strftime (x : value) (format : string) : result string :=
  match x with
  | VDate d => Ok (strftime (midnight d) format)
  | VDatetime dt => Ok (strftime dt format)
  | _ => Raise AttributeError
  end.

(** [float(v)]. *)
Definition py_float (v : json) : result Q :=
  match v with
  | JNum q => match float_of_num q with Some r => Ok r | None => Raise OverflowError end
  | JBool b => Ok (if b then 1%Q else 0%Q)
  | JStr s => match float_of_str s with Some q => Ok q | None => Raise ValueError end
  | _ => Raise TypeError
  end.

(** [format] is the pattern or [None]; a [datetime] is tested before a
    [date] because it is one. *)
Definition as_date (date_like : value) (format : option string) : result value :=
  match date_like with
  | VDatetime dt => Ok (VDate (dt_day dt))
  | VDate d => Ok (VDate d)
  | VStr s =>
      match format with
      | Some f =>
          match strptime s f with
          | Some dt => Ok (VDatetime dt)
          | None => Raise ValueError
          end
      | None => Raise TypeError
      end
  | _ => Raise ValueError
  end.

Definition generate_date_range (start end_ : value) (_format : option string) : gen value :=
  let! start := as_date start _format in
  let! end_ := as_date end_ _format in
  let! forward := py_le start end_ in
  let step := if forward then 1 else -1 in
  let! span := py_sub_days end_ start in
  for_each (py_range 0 (span + step) step) (λ days,
    let! day := py_add_days start days in
    match _format with
    | None => yield day
    | Some f => let! text := py_strftime day f in yield (VStr text)
    end).

Definition generate_date_pairs (start_date end_date : value) (n : Z) : gen (value * value) :=
  generate_item_pairs (generate_date_range start_date end_date (Some ISO)) n.

Definition rates_rows (record_date : string) (rates : json) : gen ExchangeRow :=
  let! entries := py_items rates in
  for_each entries (λ entry,
    let! r := py_float entry.2 in
    yield {| date := record_date; currency := entry.1; rate := r |}).

Definition get_exr_366_days (start_date end_date : value) : gen ExchangeRow :=
  let! e := as_date end_date (Some ISO) in
  let! s := as_date start_date (Some ISO) in
  let! span := py_sub_days e s in
  if negb (span <=? 365) then raise AssertionError
  else
    match requests_get start_date end_date with
    | RequestFailed ex => raise ex
    | Response status body =>
        if (400 <=? status) && (status <? 600) then raise HTTPError
        else
          match body with
          | None => raise JSONDecodeError
          | Some json_resp =>
              let! has_rates := py_contains "rates" json_resp in
              if has_rates then
                let! rates := py_getitem json_resp "rates" in
                let! entries := py_items rates in
                for_each entries (λ entry, rates_rows entry.1 entry.2)
              else raise ValueError
          end
    end.

(** What the consumer of [get_exr_timeseries] sees, and the calls of
    [get_exr_366_days] made on the way, in order. *)
Record run := Run { rows : list ExchangeRow; raised : option exn; fetches : list (value * value) }.

(** The arguments of the call of [get_exr_366_days] in the loop body. *)
Definition fetch_window (date_pair : value * value) (is_last_pair : bool) : result (value * value) :=
  let day_offset := if is_last_pair then 0 else 1 in
  d ← as_date date_pair.2 (Some ISO);
  shifted ← py_add_days d (- day_offset);
  text ← py_strftime shifted ISO;
  Ok (date_pair.1, VStr text).

(** The [for] loop over the tagged pairs; [ending] is how the generator
    of pairs stopped. *)
Fixpoint fetch_loop (tagged : list ((value * value) * bool)) (ending : option exn) : run :=
  match tagged with
  | [] => Run [] ending []
  | (date_pair, is_last_pair) :: tagged' =>
      match fetch_window date_pair is_last_pair with
      | Raise e => Run [] (Some e) []
      | Ok w =>
          let fetched := get_exr_366_days w.1 w.2 in
          match fetched.2 with
          | Some e => Run fetched.1 (Some e) [w]
          | None =>
              let r := fetch_loop tagged' ending in
              Run (fetched.1 ++ rows r) (raised r) (w :: fetches r)
          end
      end
  end.

Definition n_cuts (start_date end_date : string) : result Z :=
  e ← as_date (VStr end_date) (Some ISO);
  s ← as_date (VStr start_date) (Some ISO);
  span ← py_sub_days e s;
  Ok (py_ceil_div (Z.abs span) 365).

Definition get_exr_timeseries (start_date end_date : string) : run :=
  match n_cuts start_date end_date with
  | Raise e => Run [] (Some e) []
  | Ok n =>
      let tagged := zip_is_last (generate_date_pairs (VStr start_date) (VStr end_date) n) in
      fetch_loop tagged.1 tagged.2
  end.

(** *** Vocabulary for the properties *)

(** The text of day [o] in the default pattern, and that text as the
value the generators pass around. *)
Definition text (o : Z) : string := strftime (midnight o) ISO.
Definition day (o : Z) : value := VStr (text o).
Definition day_pair (p : Z * Z) : value * value := (day p.1, day p.2).

(** The two endpoints are the text of the days [a] and [b], and the text
of every day from [a] to [b] parses back to that day. *)
Definition range_ok (start_date end_date : string) (a b : Z) : Prop :=
  strptime start_date ISO = Some (midnight a) ∧
  strptime end_date ISO = Some (midnight b) ∧
  MINORDINAL ≤ a ∧ b ≤ MAXORDINAL ∧
  ∀ o, a ≤ o ≤ b → strptime (text o) ISO = Some (midnight o).

(** Fetching windows one after the other until a fetch raises. *)
Fixpoint fetch_each (ws : list (value * value)) : run :=
  match ws with
  | [] => Run [] None []
  | w :: ws' =>
      let fetched := get_exr_366_days w.1 w.2 in
      match fetched.2 with
      | Some e => Run fetched.1 (Some e) [w]
      | None =>
          let r := fetch_each ws' in
          Run (fetched.1 ++ rows r) (raised r) (w :: fetches r)
      end
  end.

(** The rows that the fetches of [ws] yield, all of them. *)
Definition fetched_rows (ws : list (value * value)) : list ExchangeRow :=
  concat ((λ w, (get_exr_366_days w.1 w.2).1) <$> ws).

(** The windows that the loop of [get_exr_timeseries] asks for, in order,
if no fetch fails: the arguments it computes for each tagged pair. *)
Definition planned_windows (start_date end_date : string) : list (value * value) :=
  match n_cuts start_date end_date with
  | Raise _ => []
  | Ok n =>
      omap (λ tp, match fetch_window tp.1 tp.2 with Ok w => Some w | Raise _ => None end)
           (zip_is_last (generate_date_pairs (VStr start_date) (VStr end_date) n)).1
  end.



End module.

(** The windows over the samples [c] of a range, as days: every window
but the last ends one day before the next sample. *)
Fixpoint windows (c : list Z) : list (Z * Z) :=
  match c with
  | [] => []
  | x :: c' =>
      match c' with
      | [] => []
      | y :: c'' => (x, match c'' with [] => y | _ => y - 1 end) :: windows c'
      end
  end.

(** ** Doubles

    [float(x)] on a number: the double nearest to it, ties to the even
    one; an integer that rounds to [2^1024] is too large. *)

Module Double.
(** The integer nearest to [num / den], ties to the even one, for
    positive [den]. *)
Definition nearest_even (num den : Z) : Z :=
  let k := num `div` den in
  let r := num `mod` den in
  if 2 * r <? den then k
  else if den <? 2 * r then k + 1
  else if Z.even k then k else k + 1.

(** The largest [e] with [2^e <= p / d], for positive [p] and [d]. *)
Definition exponent (p d : Z) : Z :=
  let e := Z.log2 p - Z.log2 d in
  if (if 0 <=? e then d * 2 ^ e <=? p else d <=? p * 2 ^ (- e)) then e else e - 1.

(** The double nearest to [p / d], for positive [p] and [d]: 53 bits
    from the leading one, and no bit below [2^-1074]. *)
Definition of_positive (p d : Z) : option Q :=
  let u := Z.max (exponent p d - 52) (-1074) in
  if 0 <=? u then
    let m := nearest_even p (d * 2 ^ u) in
    if 2 ^ 1024 <=? m * 2 ^ u then None else Some (Qmake (m * 2 ^ u) 1)
  else
    let m := nearest_even (p * 2 ^ (- u)) d in
    Some (Qred (Qmake m (Z.to_pos (2 ^ (- u))))).

Definition round (q : Q) : option Q :=
  match Qnum q with
  | 0 => Some 0%Q
  | Zpos p => of_positive (Zpos p) (Zpos (Qden q))
  | Zneg p => Qopp <$> of_positive (Zpos p) (Zpos (Qden q))
  end.

(** [a / b] on two integers, [b] not zero: the double nearest to the
    quotient, [None] when the quotient is too large for a double. *)
Definition true_div (a b : Z) : option Q :=
  if 0 <? b then round (Qmake a (Z.to_pos b))
  else round (Qmake (- a) (Z.to_pos (- b))).
End Double.

(** ** The library at the default pattern

    The proleptic Gregorian calendar of [datetime] and the text form
    [YYYY-MM-DD], to run the module on concrete dates.  Only the default
    pattern is covered and only its canonical text (four, two and two
    digits) is parsed. *)

Module Gregorian.
Definition is_leap (year : Z) : bool :=
  (year `mod` 4 =? 0) && (negb (year `mod` 100 =? 0) || (year `mod` 400 =? 0)).

Definition days_before_year (year : Z) : Z :=
  let y := year - 1 in y * 365 + y `div` 4 - y `div` 100 + y `div` 400.

Definition days_in_month (year month : Z) : Z :=
  if month =? 2 then (if is_leap year then 29 else 28)
  else if (month =? 4) || (month =? 6) || (month =? 9) || (month =? 11) then 30 else 31.

Definition days_before_month (year month : Z) : Z :=
  foldr Z.add 0 (days_in_month year <$> count_from 1 1 (Z.to_nat (month - 1))).

Definition ymd2ord (year month day : Z) : Z :=
  days_before_year year + days_before_month year month + day.

(** The month and the day in it of day [n] (from 0) of [year]. *)
Fixpoint month_day (year : Z) (months : list Z) (n : Z) : Z * Z :=
  match months with
  | [] => (12, n + 1)
  | month :: months' =>
      if n <? days_in_month year month then (month, n + 1)
      else month_day year months' (n - days_in_month year month)
  end.

Definition ord2ymd (ordinal : Z) : Z * Z * Z :=
  let n := ordinal - 1 in
  let n400 := n `div` 146097 in
  let n := n `mod` 146097 in
  let n100 := n `div` 36524 in
  let n := n `mod` 36524 in
  let n4 := n `div` 1461 in
  let n := n `mod` 1461 in
  let n1 := n `div` 365 in
  let n := n `mod` 365 in
  let year := n400 * 400 + 1 + n100 * 100 + n4 * 4 + n1 in
  if (n1 =? 4) || (n100 =? 4) then (year - 1, 12, 31)
  else let md := month_day year [1; 2; 3; 4; 5; 6; 7; 8; 9; 10; 11; 12] n in (year, md.1, md.2).

Definition digit (n : Z) : ascii := ascii_of_nat (48 + Z.to_nat (n `mod` 10)).

Definition digit_value (c : ascii) : option Z :=
  let n := Z.of_nat (nat_of_ascii c) in
  if (48 <=? n) && (n <=? 57) then Some (n - 48) else None.

Definition format_ymd (ymd : Z * Z * Z) : string :=
  let '(y, m, d) := ymd in
  String (digit (y `div` 1000)) (String (digit (y `div` 100)) (String (digit (y `div` 10))
    (String (digit y) (String "-" (String (digit (m `div` 10)) (String (digit m)
      (String "-" (String (digit (d `div` 10)) (String (digit d) EmptyString))))))))).

Definition number (digits : list ascii) : option Z :=
  foldl (λ acc c, a ← acc; v ← digit_value c; Some (10 * a + v)) (Some 0) digits.

Definition parse_ymd (s : string) : option (Z * Z * Z) :=
  match list_ascii_of_string s with
  | [y1; y2; y3; y4; s1; m1; m2; s2; d1; d2] =>
      if Ascii.eqb s1 "-" && Ascii.eqb s2 "-" then
        y ← number [y1; y2; y3; y4];
        m ← number [m1; m2];
        d ← number [d1; d2];
        if (1 <=? y) && (1 <=? m) && (m <=? 12) && (1 <=? d) && (d <=? days_in_month y m)
        then Some (y, m, d) else None
      else None
  | _ => None
  end.

Definition parse_text (text format : string) : option datetime :=
  if String.eqb format ISO then
    ymd ← parse_ymd text; Some (midnight (ymd2ord ymd.1.1 ymd.1.2 ymd.2))
  else None.

Definition format_text (dt : datetime) (format : string) : string :=
  if String.eqb format ISO then format_ymd (ord2ymd (dt_day dt)) else "".

(** No text is a number: the rates served are JSON numbers. *)
Definition no_number (s : string) : option Q := None.

Definition runtime (service : value → value → http_result) : Runtime :=
  {| strptime := parse_text; strftime := format_text;
     float_of_str := no_number; float_of_num := Double.round;
     requests_get := service |}.
End Gregorian.

(** ** Remote services to run the module against *)

Module Service.
(** The service is not reachable. *)
Definition unreachable (start_date end_date : value) : http_result :=
  RequestFailed ConnectionError.

(** The service answers every request with no rates at all. *)
Definition empty (start_date end_date : value) : http_result :=
  Response 200 (Some (JObj [("rates", JObj [])])).

Definition usd (text : string) : string * json := (text, JObj [("USD", JNum 1)]).

(** The service answers with the rate of one currency for every day of
the window asked for. *)
Definition exact (start_date end_date : value) : http_result :=
  match start_date, end_date with
  | VStr s, VStr e =>
      match Gregorian.parse_text s ISO, Gregorian.parse_text e ISO with
      | Some x, Some y =>
          Response 200 (Some (JObj [("rates", JObj (
            (λ o, usd (Gregorian.format_text (midnight o) ISO))
              <$> count_from (dt_day x) 1 (Z.to_nat (dt_day y - dt_day x + 1))))]))
      | _, _ => Response 400 None
      end
  | _, _ => Response 400 None
  end.

(** The service answers with one day of rates, the second of them
[null]. *)
Definition null_rate (start_date end_date : value) : http_result :=
  Response 200 (Some (JObj [("rates", JObj [
    ("2023-01-01", JObj [("USD", JNum 1); ("EUR", JNull)])])])).

(** The service answers with the rate of the first day of the window,
but is unavailable for the window that starts on 2021-10-22. *)
Definition unavailable_once (start_date end_date : value) : http_result :=
  match start_date with
  | VStr s =>
      if String.eqb s "2021-10-22" then Response 503 None
      else Response 200 (Some (JObj [("rates", JObj [usd s])]))
  | _ => Response 400 None
  end.
End Service.


(** * Properties *)

(** ** The calendar: text of a day parses back to that day *)

Module GregorianFacts.
Import Gregorian.

Lemma digit_value_digit n : digit_value (digit n) = Some (n `mod` 10).
Proof.
  unfold digit.
  assert (∃ i : nat, (i < 10)%nat ∧ n `mod` 10 = Z.of_nat i) as (i & Hi & ->).
  { exists (Z.to_nat (n `mod` 10)). pose proof (Z.mod_pos_bound n 10). lia. }
  rewrite Nat2Z.id.
  do 10 (destruct i as [|i]; [reflexivity|]). lia.
Qed.

Local Opaque digit digit_value Z.div Z.modulo Z.mul Z.add.

Lemma number_year y :
  0 ≤ y ≤ 9999 →
  number [digit (y `div` 1000); digit (y `div` 100); digit (y `div` 10); digit y] = Some y.
Proof.
  intros Hy. unfold number. cbn [foldl mbind option_bind]. rewrite !digit_value_digit.
  cbn [mbind option_bind]. f_equal. Z.div_mod_to_equations. lia.
Qed.

Lemma number_two k :
  0 ≤ k ≤ 99 → number [digit (k `div` 10); digit k] = Some k.
Proof.
  intros Hk. unfold number. cbn [foldl mbind option_bind]. rewrite !digit_value_digit.
  cbn [mbind option_bind]. f_equal. Z.div_mod_to_equations. lia.
Qed.

Lemma days_in_month_bounds y m : 28 ≤ days_in_month y m ≤ 31.
Proof. unfold days_in_month. repeat case_match; lia. Qed.

Lemma parse_format y m d :
  1 ≤ y ≤ 9999 → 1 ≤ m ≤ 12 → 1 ≤ d ≤ days_in_month y m →
  parse_ymd (format_ymd (y, m, d)) = Some (y, m, d).
Proof.
  intros Hy Hm Hd. pose proof (days_in_month_bounds y m).
  unfold parse_ymd, format_ymd. cbn [list_ascii_of_string]. cbv [Ascii.eqb Bool.eqb andb].
  rewrite number_year, !number_two by lia. cbn [mbind option_bind].
  by rewrite !(proj2 (Z.leb_le _ _)) by lia.
Qed.

Local Opaque Z.sub.

Lemma days_before_month_leap y m :
  1 ≤ m ≤ 12 →
  days_before_month y m =
    match m with
    | 2 => 31 | 3 => 59 | 4 => 90 | 5 => 120 | 6 => 151 | 7 => 181 | 8 => 212
    | 9 => 243 | 10 => 273 | 11 => 304 | 12 => 334 | _ => 0
    end + (if (2 <? m) && is_leap y then 1 else 0).
Proof.
  intros Hm. unfold days_before_month, days_in_month.
  assert (∃ i : nat, (i < 12)%nat ∧ m = Z.of_nat (S i)) as (i & Hi & ->).
  { exists (Z.to_nat (m - 1)). lia. }
  destruct (is_leap y);
    do 12 (destruct i as [|i]; [vm_compute; reflexivity|]); lia.
Qed.

Lemma month_day_spec year n :
  0 ≤ n ≤ 364 →
  let md := month_day year [1; 2; 3; 4; 5; 6; 7; 8; 9; 10; 11; 12] n in
  1 ≤ md.1 ≤ 12 ∧ 1 ≤ md.2 ≤ days_in_month year md.1 ∧
  days_before_month year md.1 + md.2 = n + 1.
Proof.
  intros Hn. cbn [month_day]. unfold days_in_month. cbn [Z.eqb Pos.eqb orb].
  destruct (is_leap year) eqn:Hleap;
    repeat match goal with
      | |- context [?a <? ?b] => destruct (Z.ltb_spec a b)
      end;
    cbn [fst snd];
    (rewrite days_before_month_leap by lia); rewrite Hleap;
    unfold days_in_month;
    cbn [Z.eqb Pos.eqb orb Z.ltb Z.compare Pos.compare Pos.compare_cont andb];
    lia.
Qed.

Lemma is_leap_true y :
  y `mod` 4 = 0 → y `mod` 100 ≠ 0 ∨ y `mod` 400 = 0 → is_leap y = true.
Proof.
  intros H4 H100. unfold is_leap. rewrite H4. cbn [Z.eqb andb].
  destruct H100 as [H|H].
  - by rewrite (proj2 (Z.eqb_neq _ _) H).
  - rewrite H. cbn [Z.eqb]. by rewrite orb_true_r.
Qed.

Lemma div_mod_pos a b : 0 < b → a = b * (a `div` b) + a `mod` b ∧ 0 ≤ a `mod` b < b.
Proof. intros Hb. split; [by apply Z.div_mod; lia | by apply Z.mod_pos_bound]. Qed.

(** The civil date of an ordinal is a date of the calendar, and it is
    the date of that ordinal. *)
Lemma ord2ymd_spec o :
  MINORDINAL ≤ o ≤ MAXORDINAL →
  ∃ y m d, ord2ymd o = (y, m, d) ∧ 1 ≤ y ≤ 9999 ∧ 1 ≤ m ≤ 12 ∧
           1 ≤ d ≤ days_in_month y m ∧ ymd2ord y m d = o.
Proof.
  unfold MINORDINAL, MAXORDINAL, ord2ymd. intros Ho. cbv zeta.
  pose proof (div_mod_pos (o - 1) 146097 ltac:(lia)) as H1.
  set (n400 := (o - 1) `div` 146097) in *. set (r1 := (o - 1) `mod` 146097) in *.
  pose proof (div_mod_pos r1 36524 ltac:(lia)) as H2.
  set (n100 := r1 `div` 36524) in *. set (r2 := r1 `mod` 36524) in *.
  pose proof (div_mod_pos r2 1461 ltac:(lia)) as H3.
  set (n4 := r2 `div` 1461) in *. set (r3 := r2 `mod` 1461) in *.
  pose proof (div_mod_pos r3 365 ltac:(lia)) as H4.
  set (n1 := r3 `div` 365) in *. set (r4 := r3 `mod` 365) in *.
  clearbody n400 r1 n100 r2 n4 r3 n1 r4.
  set (year := n400 * 400 + 1 + n100 * 100 + n4 * 4 + n1).
  assert (0 ≤ n400 ∧ 0 ≤ n100 ≤ 4 ∧ 0 ≤ n4 ≤ 24 ∧ 0 ≤ n1 ≤ 4) as Hb by lia.
  destruct ((n1 =? 4) || (n100 =? 4)) eqn:Hend.
  - exists (year - 1), 12, 31. split; [done|].
    apply orb_true_iff in Hend. rewrite !Z.eqb_eq in Hend.
    assert (is_leap (year - 1) = true) as Hleap.
    { apply is_leap_true; subst year; Z.div_mod_to_equations; lia. }
    unfold ymd2ord. rewrite days_before_month_leap by lia. rewrite Hleap.
    unfold days_in_month, days_before_year. cbn [Z.eqb Pos.eqb orb Z.ltb Z.compare Pos.compare Pos.compare_cont andb].
    subst year. Z.div_mod_to_equations. lia.
  - apply orb_false_iff in Hend. rewrite !Z.eqb_neq in Hend.
    pose proof (month_day_spec year r4 ltac:(lia)) as Hmd. cbv zeta in Hmd.
    destruct (month_day year _ r4) as [m d]. cbn [fst snd] in *.
    exists year, m, d. split; [done|].
    unfold ymd2ord, days_before_year. subst year.
    repeat split; try lia; Z.div_mod_to_equations; lia.
Qed.

(** The text of a day parses back to the midnight of that day. *)
Lemma parse_format_text o :
  MINORDINAL ≤ o ≤ MAXORDINAL →
  parse_text (format_text (midnight o) ISO) ISO = Some (midnight o).
Proof.
  intros Ho. destruct (ord2ymd_spec o Ho) as (y & m & d & Hymd & Hy & Hm & Hd & Hord).
  unfold parse_text, format_text. rewrite String.eqb_refl. cbn [dt_day midnight].
  rewrite Hymd, parse_format by done. cbn [mbind option_bind fst snd].
  by rewrite Hord.
Qed.
End GregorianFacts.

Lemma Ok_inj {A} (x y : A) : Ok x = Ok y → x = y.
Proof. by intros [=]. Qed.

(** ** Ranges of integers *)

Lemma count_from_length a s n : length (count_from a s n) = n.
Proof. revert a. induction n as [|n IH]; intros a; simpl; [done|]. by rewrite IH. Qed.

Lemma count_from_app a s n m :
  count_from a s (n + m) = count_from a s n ++ count_from (a + Z.of_nat n * s) s m.
Proof.
  revert a. induction n as [|n IH]; intros a.
  - simpl. f_equal. lia.
  - cbn [Nat.add count_from app]. rewrite IH. do 3 f_equal. lia.
Qed.

Lemma count_from_shift k a s n : count_from (k + a) s n = Z.add k <$> count_from a s n.
Proof.
  revert a. induction n as [|n IH]; intros a; [done|].
  cbn [count_from fmap list_fmap]. f_equal. rewrite <- IH. f_equal. lia.
Qed.

Lemma elem_of_count_from a n x : x ∈ count_from a 1 n ↔ a ≤ x < a + Z.of_nat n.
Proof.
  revert a. induction n as [|n IH]; intros a; simpl.
  - rewrite elem_of_nil. lia.
  - rewrite elem_of_cons, IH. lia.
Qed.

Lemma count_from_lower a s n x : 0 ≤ s → x ∈ count_from a s n → a ≤ x.
Proof.
  intros Hs. revert a. induction n as [|n IH]; intros a; simpl.
  - by rewrite elem_of_nil.
  - rewrite elem_of_cons. intros [->|Hx]; [lia|]. apply IH in Hx. lia.
Qed.

Lemma count_from_down c n k :
  k ∈ count_from c (-1) n → c - (Z.of_nat n - 1) ≤ k ≤ c.
Proof.
  revert c. induction n as [|n IH]; intros c; simpl; [by rewrite elem_of_nil|].
  rewrite elem_of_cons. intros [->|Hk%IH]; lia.
Qed.

Lemma count_from_sorted a s n : 0 < s → StronglySorted Z.lt (count_from a s n).
Proof.
  intros Hs. revert a. induction n as [|n IH]; intros a; simpl; constructor; [apply IH|].
  apply Forall_forall. intros x Hx. apply count_from_lower in Hx; lia.
Qed.

Lemma count_from_last a s n : last (count_from a s (S n)) = Some (a + Z.of_nat n * s).
Proof.
  replace (S n) with (n + 1)%nat by lia. rewrite count_from_app. simpl. by rewrite last_snoc.
Qed.

Lemma py_range_forward span :
  0 ≤ span → py_range 0 (span + 1) 1 = count_from 0 1 (Z.to_nat (span + 1)).
Proof. intros Hs. unfold py_range. simpl. by rewrite Z.div_1_r, !Z.sub_0_r, Z.add_simpl_r. Qed.

Lemma py_range_backward span :
  span < 0 → py_range 0 (span - 1) (-1) = count_from 0 (-1) (Z.to_nat (1 - span)).
Proof.
  intros Hs. unfold py_range. simpl. rewrite Z.div_1_r. do 2 f_equal. lia.
Qed.

Lemma ceil_div_pos a b : 0 < a → 0 < b → 0 < ceil_div a b.
Proof.
  intros Ha Hb. unfold ceil_div.
  assert ((- a) `div` b < 0); [|lia].
  apply Z.div_lt_upper_bound; lia.
Qed.

Lemma ceil_div_zero b : ceil_div 0 b = 0.
Proof. unfold ceil_div. simpl. by rewrite Zdiv_0_l. Qed.

(** Where the quotient does not round to zero, the ceiling the code
computes is the ceiling of the quotient. *)
Lemma UNDERFLOW_large : 2 ^ 53 < UNDERFLOW.
Proof. vm_compute. reflexivity. Qed.

Lemma py_ceil_div_exact a b : 0 ≤ a → b < a * UNDERFLOW ∨ a = 0 → py_ceil_div a b = ceil_div a b.
Proof.
  intros Ha Hb. unfold py_ceil_div, rounds_to_zero.
  rewrite (proj2 (Z.ltb_ge a 0)) by lia. cbn [andb orb]. rewrite orb_false_r.
  destruct (Z.ltb_spec 0 a); [|done]. cbn [andb].
  by rewrite (proj2 (Z.leb_gt _ _)) by lia.
Qed.

Lemma py_ceil_div_le a b : 0 ≤ a → b ≤ a → py_ceil_div a b = ceil_div a b.
Proof.
  intros Ha Hb. apply py_ceil_div_exact; [done|].
  pose proof UNDERFLOW_large. destruct (decide (a = 0)); [by right|left]. nia.
Qed.

Lemma py_ceil_div_365 a : 0 ≤ a → py_ceil_div a 365 = ceil_div a 365.
Proof.
  intros Ha. apply py_ceil_div_exact; [done|].
  pose proof UNDERFLOW_large. destruct (decide (a = 0)); [by right|left]. nia.
Qed.

Lemma ceil_div_365_le a : 0 ≤ a → ceil_div a 365 ≤ a.
Proof.
  intros Ha. unfold ceil_div.
  pose proof (Z.div_mod (- a) 365 ltac:(lia)) as Hdiv.
  pose proof (Z.mod_pos_bound (- a) 365 ltac:(lia)) as Hmod. lia.
Qed.

Lemma py_ceil_div_underflow a b : 0 < a → a * UNDERFLOW ≤ b → py_ceil_div a b = 0.
Proof.
  intros Ha Hb. unfold py_ceil_div, rounds_to_zero.
  by rewrite (proj2 (Z.ltb_lt 0 a)), (proj2 (Z.leb_le _ _)) by lia.
Qed.

(** ** Generators *)

Lemma for_each_yield {A B} (f : A → B) (body : A → gen B) xs :
  (∀ x, x ∈ xs → body x = yield (f x)) →
  for_each xs body = (f <$> xs, None).
Proof.
  induction xs as [|x xs IH]; intros Hbody; [done|].
  cbn [for_each]. rewrite Hbody, IH by set_solver. done.
Qed.

(** ** Slices and samples *)

Section items_facts.
Context {T : Type} `{!EqDecision T}.
Implicit Types l c : list T.

Lemma every_sublist s k l : every s k l `sublist_of` l.
Proof.
  revert k. induction l as [|x l IH]; intros k; simpl; [constructor|].
  destruct k; by constructor.
Qed.

Lemma every_elem_of s k l x : x ∈ every s k l → x ∈ l.
Proof. apply sublist_subseteq, every_sublist. Qed.

Lemma sublist_sorted (R : relation T) l1 l2 :
  l1 `sublist_of` l2 → StronglySorted R l2 → StronglySorted R l1.
Proof.
  induction 1 as [|x l1 l2 Hsub IH|x l1 l2 Hsub IH]; intros Hsorted; [done|..].
  - apply StronglySorted_cons in Hsorted as [Hall Hsorted].
    apply StronglySorted_cons. split; [|by apply IH].
    apply Forall_forall. intros y Hy. rewrite Forall_forall in Hall.
    by apply Hall, (sublist_subseteq _ _ Hsub).
  - apply StronglySorted_cons in Hsorted as [_ Hsorted]. by apply IH.
Qed.

Lemma zip_is_last_loop_list x l :
  (zip_is_last_loop x l None).2 = None ∧
  (zip_is_last_loop x l None).1.*1 = x :: l ∧
  (zip_is_last_loop x l None).1.*2 = replicate (length l) false ++ [true].
Proof.
  revert x. induction l as [|y l IH]; intros x; [done|].
  cbn [zip_is_last_loop]. destruct (IH y) as (Hend & Hfst & Hsnd).
  unfold andthen. cbn [yield fst snd]. cbn [app fmap list_fmap fst snd].
  by rewrite Hend, Hfst, Hsnd.
Qed.
End items_facts.

Section samples.
Context {A B : Type} `{!EqDecision A, !EqDecision B} (f : A → B).

Lemma every_fmap s k (l : list A) : every s k (f <$> l) = f <$> every s k l.
Proof.
  revert k. induction l as [|x l IH]; intros k; [done|].
  destruct k; cbn [fmap list_fmap every]; by rewrite <- ?IH.
Qed.

Lemma slice_step_fmap (l c : list A) step :
  slice_step l step = Ok c → slice_step (f <$> l) step = Ok (f <$> c).
Proof.
  unfold slice_step. repeat case_match; intros [= <-]; [|rewrite <- fmap_reverse];
    by rewrite every_fmap.
Qed.

Lemma slice_step_elem_of (l c : list A) step x :
  slice_step l step = Ok c → x ∈ c → x ∈ l.
Proof.
  unfold slice_step. repeat case_match; intros [= <-] Hx%every_elem_of; [done|].
  by apply elem_of_reverse.
Qed.

(** Sampling commutes with a map that tells the items apart. *)
Lemma narrowed_items_with_final_fmap (l c : list A) n :
  (∀ x y, x ∈ l → y ∈ l → f x = f y → x = y) →
  narrowed_items_with_final l n = Ok c →
  narrowed_items_with_final (f <$> l) n = Ok (f <$> c).
Proof.
  intros Hinj. unfold narrowed_items_with_final, item_last, mbind, result_bind.
  rewrite length_fmap, fmap_last.
  destruct (slice_step l _) as [narrowed|] eqn:Hslice; [|done].
  rewrite (slice_step_fmap _ _ _ Hslice).
  destruct (last l) as [final|] eqn:Hlast; [|done]. cbn [fmap option_fmap option_map].
  intros [= <-]. rewrite fmap_app. do 2 f_equal.
  rewrite (bool_decide_ext (f final ∈ f <$> narrowed) (final ∈ narrowed)).
  { by destruct (bool_decide _). }
  split; [|apply list_elem_of_fmap_2].
  intros (x & Heq & Hx)%list_elem_of_fmap.
  apply Hinj in Heq as ->; [done|by apply last_Some_elem_of|].
  by eapply slice_step_elem_of.
Qed.
End samples.

Lemma sorted_last_max (c : list Z) x :
  StronglySorted Z.lt c → x ∈ c → (∀ y, y ∈ c → y ≤ x) → last c = Some x.
Proof.
  induction c as [|y c IH]; intros Hsorted Hx Hmax; [by apply elem_of_nil in Hx|].
  apply StronglySorted_cons in Hsorted as [Hall Hsorted]. rewrite Forall_forall in Hall.
  destruct c as [|z c].
  - apply list_elem_of_singleton in Hx as ->. done.
  - rewrite last_cons_cons. apply IH; [done| |by intros y' Hy'; apply Hmax; right].
    apply elem_of_cons in Hx as [->|Hx]; [|done].
    specialize (Hall z ltac:(left)). specialize (Hmax z ltac:(right; left)). lia.
Qed.

(** The samples of the days [a], [a+1], ..., [a+m+1]: they start at the
first day, end at the last, and increase. *)
Lemma samples_chain a m n :
  1 ≤ n → n ≤ Z.of_nat (S (S m)) →
  ∃ c', narrowed_items_with_final (count_from a 1 (S (S m))) n = Ok (a :: c') ∧
        c' ≠ [] ∧
        last (a :: c') = Some (a + Z.of_nat (S m)) ∧
        StronglySorted Z.lt (a :: c') ∧
        Forall (λ o, a ≤ o ≤ a + Z.of_nat (S m)) (a :: c').
Proof.
  intros Hn Hlen. set (b := a + Z.of_nat (S m)). set (l := count_from a 1 (S (S m))).
  unfold narrowed_items_with_final, item_last, mbind, result_bind.
  assert (last l = Some b) as ->.
  { unfold l, b. rewrite count_from_last. f_equal. lia. }
  unfold slice_step. rewrite (count_from_length a 1 (S (S m)) : length l = _).
  rewrite py_ceil_div_le by lia.
  pose proof (ceil_div_pos (Z.of_nat (S (S m))) n ltac:(lia) ltac:(lia)) as Hstep.
  rewrite (proj2 (Z.eqb_neq _ _)), (proj2 (Z.ltb_lt _ _)) by lia.
  set (s := (Z.to_nat _ - 1)%nat). change l with (a :: count_from (a + 1) 1 (S m)).
  cbn [every]. fold (count_from (a + 1) 1 (S m)). set (t := every s s _).
  assert (StronglySorted Z.lt (a :: t)) as Hsorted.
  { apply (sublist_sorted _ _ l); [apply (every_sublist s 0 l)|by apply count_from_sorted]. }
  assert (∀ x, x ∈ a :: t → a ≤ x ≤ b) as Hin.
  { intros x Hx. apply (every_elem_of s 0 l), elem_of_count_from in Hx. lia. }
  case_bool_decide as Hfinal.
  - exists t. rewrite app_nil_r.
    repeat split; [|by apply sorted_last_max; [..|intros y Hy; apply Hin]|done|].
    + intros ->. apply list_elem_of_singleton in Hfinal. lia.
    + by apply Forall_forall.
  - exists (t ++ [b]). repeat split; [by destruct t|by rewrite app_comm_cons, last_snoc|..].
    + rewrite app_comm_cons. apply StronglySorted_app. repeat split; [|done|by repeat constructor].
      intros x y Hx ->%list_elem_of_singleton.
      destruct (decide (x = b)) as [->|]; [done|]. specialize (Hin x Hx). lia.
    + rewrite app_comm_cons. apply Forall_app. split; [by apply Forall_forall|].
      apply Forall_singleton. lia.
Qed.

Lemma every_skip {T} s (l1 l2 : list T) :
  every s (length l1) (l1 ++ l2) = every s 0 l2.
Proof. induction l1 as [|x l1 IH]; [done|]. by cbn [length app every]. Qed.

(** Every [s+1]-th of consecutive integers, when the last one is taken. *)
Lemma every_count_from s a m :
  every s 0 (count_from a 1 (m * S s + 1)) = count_from a (Z.of_nat (S s)) (m + 1).
Proof.
  revert a. induction m as [|m IH]; intros a; [done|].
  replace (S m * S s + 1)%nat with (S s + (m * S s + 1))%nat by lia.
  rewrite count_from_app.
  change (count_from a 1 (S s)) with (a :: count_from (a + 1) 1 s).
  cbn [app every].
  rewrite <- (count_from_length (a + 1) 1 s) at 2. rewrite every_skip, IH.
  change (S m + 1)%nat with (S (m + 1)). cbn [count_from]. do 2 f_equal. lia.
Qed.

Lemma elem_of_count_from_step a s n x :
  x ∈ count_from a s n → ∃ i : nat, (i < n)%nat ∧ x = a + Z.of_nat i * s.
Proof.
  revert a. induction n as [|n IH]; intros a; simpl; [by rewrite elem_of_nil|].
  rewrite elem_of_cons. intros [->|(i & Hi & ->)%IH].
  - exists 0%nat. split; lia.
  - exists (S i). split; lia.
Qed.

(** The windows over samples that are [s] days apart. *)
Lemma windows_count_from a s k :
  windows (count_from a s (S (S k)))
  = ((λ x, (x, x + s - 1)) <$> count_from a s k)
    ++ [(a + Z.of_nat k * s, a + Z.of_nat (S k) * s)].
Proof.
  revert a. induction k as [|k IH]; intros a.
  - cbn. do 3 f_equal; lia.
  - change (count_from a s (S (S (S k))))
      with (a :: (a + s) :: count_from (a + s + s) s (S k)).
    change (windows (a :: (a + s) :: count_from (a + s + s) s (S k)))
      with ((a, a + s - 1) :: windows ((a + s) :: count_from (a + s + s) s (S k))).
    change ((a + s) :: count_from (a + s + s) s (S k))
      with (count_from (a + s) s (S (S k))).
    rewrite IH. cbn [count_from fmap list_fmap app]. do 4 f_equal; lia.
Qed.

(** ** The Lookahead Tagger and the Range Partitioner on their own *)

(** C7. On any sequence [zip_is_last] yields one pair per item, in the
order of the input; the tags are false on every item but the final one,
which is tagged true; on the empty sequence it yields nothing, and it
does not raise. *)
Theorem zip_is_last_tags {T} (l : list T) :
  zip_is_last (l, None) = (zip l (replicate (length l - 1) false ++ [true]), None).
Proof.
  destruct l as [|x l]; [done|].
  unfold zip_is_last. cbn [fst snd length].
  replace (S (length l) - 1)%nat with (length l) by lia.
  destruct (zip_is_last_loop_list x l) as (Hend & Hfst & Hsnd).
  destruct (zip_is_last_loop x l None) as [tagged ending]. cbn [fst snd] in *.
  by rewrite <- Hfst, <- Hsnd, zip_fst_snd, Hend.
Qed.

(** C5, at the input [1, 2, 1] with [n = 1]: the stride is 3, the only
sample is the first item, and the final item is not appended because an
equal item is among the samples; no pair is yielded, so no pair ends at
the final item of the input. *)
Theorem generate_item_pairs_repeated_final :
  generate_item_pairs ([1; 2; 1], None) 1 = stop ∧
  generate_item_pairs ([0; 1; 2; 3; 0], None) 2 = yield (0, 3).
Proof. split; reflexivity. Qed.

Lemma ceil_div_one n : 1 ≤ n → ceil_div 1 n = 1.
Proof.
  intros Hn. unfold ceil_div. change (- (1)) with (-1).
  assert ((-1) `div` n = -1); [|lia].
  symmetry. apply (Z.div_unique_pos (-1) n (-1) (n - 1)); lia.
Qed.

(** C6 as it is stated fails on the empty input with [n = 1]: the
stride is [ceil(0 / 1) = 0] and the slice raises. *)
Lemma generate_item_pairs_empty_raises :
  generate_item_pairs (([] : list Z), None) 1 = raise ValueError ∧
  generate_item_pairs (([] : list Z), None) 1 ≠ stop.
Proof. split; [reflexivity|discriminate]. Qed.

(** C6, amended. With [n = 0] nothing is yielded, whatever the input
(it is not even consumed); with [1 <= n < 2^1075] an input of one item
yields no pair and does not raise; with [n >= 2^1075] the quotient
[1 / n] rounds to zero, the stride is 0 and the slice of the one item
raises [ValueError]. *)
Theorem generate_item_pairs_degenerate {T} `{!EqDecision T} :
  (∀ iterator : gen T, generate_item_pairs iterator 0 = stop) ∧
  (∀ (x : T) n, 1 ≤ n → n < UNDERFLOW → generate_item_pairs ([x], None) n = stop) ∧
  (∀ (x : T) n, UNDERFLOW ≤ n → generate_item_pairs ([x], None) n = raise ValueError).
Proof.
  pose proof UNDERFLOW_large as Hlarge.
  split; [done|]. split; intros x n Hn; [intros Hsmall|]; unfold generate_item_pairs.
  - rewrite (proj2 (Z.eqb_neq _ _)) by lia. cbn [fst snd].
    unfold narrowed_items_with_final, slice_step. cbn [length].
    rewrite py_ceil_div_exact by lia. rewrite ceil_div_one by done. cbn.
    by rewrite bool_decide_eq_true_2 by (by left).
  - rewrite (proj2 (Z.eqb_neq _ _)) by lia. cbn [fst snd].
    unfold narrowed_items_with_final, slice_step. cbn [length].
    by rewrite py_ceil_div_underflow by lia.
Qed.

Lemma generate_item_pairs_degenerate_witness :
  (1 ≤ 3 ∧ 3 < UNDERFLOW ∧ generate_item_pairs ([5], None) 3 = stop) ∧
  (UNDERFLOW ≤ 10 ^ 400 ∧ generate_item_pairs ([5], None) (10 ^ 400) = raise ValueError).
Proof.
  assert (3 < UNDERFLOW) as Hsmall by (vm_compute; reflexivity).
  assert (UNDERFLOW ≤ 10 ^ 400) as Hhuge by (vm_compute; discriminate).
  split.
  - split; [lia|]. split; [exact Hsmall|].
    apply (proj1 (proj2 generate_item_pairs_degenerate) 5 3); [lia|exact Hsmall].
  - split; [exact Hhuge|].
    apply (proj2 (proj2 generate_item_pairs_degenerate) 5 (10 ^ 400)). exact Hhuge.
Defined.

(** ** The module over any library and any remote service *)

Section properties.
Context `{!Runtime}.

(** *** The Date Range Sequencer on text endpoints *)

Lemma generate_date_range_text s1 s2 x y :
  strptime s1 ISO = Some (midnight x) →
  strptime s2 ISO = Some (midnight y) →
  MINORDINAL ≤ x → x ≤ y → y ≤ MAXORDINAL →
  generate_date_range (VStr s1) (VStr s2) (Some ISO)
  = (day <$> count_from x 1 (Z.to_nat (y - x + 1)), None).
Proof.
  intros Hs1 Hs2 Hmin Hxy Hmax.
  unfold generate_date_range, as_date. rewrite Hs1, Hs2.
  cbn [eval py_le py_sub_days midnight dt_day dt_time].
  replace ((x <? y) || (x =? y) && (0 <=? 0)) with true by (symmetry; apply orb_true_iff; lia).
  rewrite Z.sub_diag, Zdiv_0_l, Z.add_0_r, py_range_forward by lia.
  rewrite (for_each_yield (λ k, day (x + k))).
  - f_equal. rewrite <- (Z.add_0_r x) at 2. rewrite count_from_shift, <- list_fmap_compose.
    apply list_fmap_ext. intros _ k _. done.
  - intros k Hk%elem_of_count_from. unfold py_add_days. cbn [dt_day dt_time midnight].
    replace ((MINORDINAL <=? x + k) && (x + k <=? MAXORDINAL)) with true
      by (symmetry; apply andb_true_iff; lia).
    done.
Qed.

(** *** The Date Normalizer *)

(** C9, where the code departs from it: text that matches the pattern
comes back as the [datetime] that [strptime] built, not as a date, while
a [datetime] given directly is cut down to its date.  The other cases are
as the claim says: a date is returned as it is, text that does not match
and values of other types raise [ValueError]. *)
Theorem as_date_text_is_datetime s f dt :
  strptime s f = Some dt →
  as_date (VStr s) (Some f) = Ok (VDatetime dt) ∧
  as_date (VDatetime dt) (Some f) = Ok (VDate (dt_day dt)) ∧
  as_date (VDate (dt_day dt)) (Some f) = Ok (VDate (dt_day dt)).
Proof. intros Hs. unfold as_date. by rewrite Hs. Qed.

Lemma as_date_rejects s f z :
  strptime s f = None →
  as_date (VStr s) (Some f) = Raise ValueError ∧
  as_date (VInt z) (Some f) = Raise ValueError ∧
  as_date VNone (Some f) = Raise ValueError.
Proof. intros Hs. unfold as_date. by rewrite Hs. Qed.

(** *** The Date Range Sequencer *)

(** C4, where the code departs from it: with a text endpoint and a date
endpoint the normalised endpoints are a [datetime] and a date, comparing
them raises [TypeError], and nothing is yielded.  This is the defect of
[as_date] on text. *)
Theorem generate_date_range_mixed s f dt d :
  strptime s f = Some dt →
  generate_date_range (VStr s) (VDate d) (Some f) = raise TypeError ∧
  generate_date_range (VDate d) (VStr s) (Some f) = raise TypeError.
Proof. intros Hs. unfold generate_date_range, as_date. by rewrite Hs. Qed.

(** Between two dates the sequence is the claimed one: ascending and
of [(end - start).days + 1] items when [start <= end], ... *)
Lemma generate_date_range_dates_forward x y :
  MINORDINAL ≤ x → x ≤ y → y ≤ MAXORDINAL →
  generate_date_range (VDate x) (VDate y) None
  = (VDate <$> count_from x 1 (Z.to_nat (y - x + 1)), None).
Proof.
  intros Hmin Hxy Hmax. unfold generate_date_range. cbn [as_date eval py_le py_sub_days].
  rewrite (proj2 (Z.leb_le _ _)), py_range_forward by lia.
  rewrite (for_each_yield (λ k, VDate (x + k))).
  - f_equal. rewrite <- (Z.add_0_r x) at 2. by rewrite count_from_shift, <- list_fmap_compose.
  - intros k Hk%elem_of_count_from. unfold py_add_days.
    replace ((MINORDINAL <=? x + k) && (x + k <=? MAXORDINAL)) with true
      by (symmetry; apply andb_true_iff; lia).
    done.
Qed.

(** ... and descending, of [(start - end).days + 1] items, when
[start > end]. *)
Lemma generate_date_range_dates_backward x y :
  MINORDINAL ≤ y → y < x → x ≤ MAXORDINAL →
  generate_date_range (VDate x) (VDate y) None
  = (VDate <$> count_from x (-1) (Z.to_nat (x - y + 1)), None).
Proof.
  intros Hmin Hxy Hmax. unfold generate_date_range. cbn [as_date eval py_le py_sub_days].
  rewrite (proj2 (Z.leb_gt _ _)) by lia.
  replace (y - x + -1) with (y - x - 1) by lia. rewrite py_range_backward by lia.
  replace (1 - (y - x)) with (x - y + 1) by lia.
  assert (∀ k, k ∈ count_from 0 (-1) (Z.to_nat (x - y + 1)) → y - x ≤ k ≤ 0) as Hk.
  { intros k Hk%count_from_down. lia. }
  rewrite (for_each_yield (λ k, VDate (x + k))).
  - f_equal. rewrite <- (Z.add_0_r x) at 2. by rewrite count_from_shift, <- list_fmap_compose.
  - intros k Hk'%Hk. unfold py_add_days.
    replace ((MINORDINAL <=? x + k) && (x + k <=? MAXORDINAL)) with true
      by (symmetry; apply andb_true_iff; lia).
    done.
Qed.

(** *** A range of zero days *)

(** C10. When the two endpoints parse to the same day, [n_cuts] is
[ceil(0 / 365) = 0], the Range Partitioner yields nothing, no fetch is
made and the run ends without a row (and without an error): the single
day of the range is not fetched. *)
Theorem zero_day_span start_date end_date dt :
  strptime start_date ISO = Some dt →
  strptime end_date ISO = Some dt →
  n_cuts start_date end_date = Ok 0 ∧
  generate_date_pairs (VStr start_date) (VStr end_date) 0 = stop ∧
  get_exr_timeseries start_date end_date = Run [] None [].
Proof.
  intros Hs He.
  assert (n_cuts start_date end_date = Ok 0) as Hn.
  { unfold n_cuts, as_date. rewrite Hs, He. cbn [mbind result_bind py_sub_days].
    by rewrite !Z.sub_diag, Zdiv_0_l. }
  split; [done|]. split; [done|].
  unfold get_exr_timeseries. by rewrite Hn.
Qed.

(** *** Fetching windows in order *)

Lemma fetch_each_all ws :
  Forall (λ w, (get_exr_366_days w.1 w.2).2 = None) ws →
  fetch_each ws = Run (fetched_rows ws) None ws.
Proof.
  induction 1 as [|w ws Hw _ IH]; [done|].
  cbn [fetch_each]. by rewrite Hw, IH.
Qed.

Lemma fetch_each_fail before w after partial ex :
  Forall (λ w', (get_exr_366_days w'.1 w'.2).2 = None) before →
  get_exr_366_days w.1 w.2 = (partial, Some ex) →
  fetch_each (before ++ w :: after)
  = Run (fetched_rows before ++ partial) (Some ex) (before ++ [w]).
Proof.
  intros Hbefore Hw. induction Hbefore as [|w' before Hw' _ IH].
  - cbn [app fetch_each]. by rewrite Hw.
  - cbn [app fetch_each]. rewrite Hw', IH. cbn [rows raised fetches].
    unfold fetched_rows. cbn [fmap list_fmap concat]. by rewrite app_assoc.
Qed.

Lemma fetch_each_prefix ws :
  fetches (fetch_each ws) `prefix_of` ws ∧
  (raised (fetch_each ws) = None →
   fetch_each ws = Run (fetched_rows ws) None ws ∧
   Forall (λ w, (get_exr_366_days w.1 w.2).2 = None) ws).
Proof.
  induction ws as [|w ws [IHp IHn]]; [done|].
  cbn [fetch_each]. destruct (get_exr_366_days w.1 w.2).2 as [e|] eqn:Hw.
  - cbn [fetches raised]. split; [|done]. by apply prefix_cons, prefix_nil.
  - cbn [fetches raised]. split; [by apply prefix_cons|].
    intros Hnone. destruct (IHn Hnone) as [Heq Hall].
    split; [|by constructor]. rewrite Heq. cbn [rows raised fetches]. done.
Qed.

Lemma windows_length c : length (windows c) = length (zip c (tail c)).
Proof.
  induction c as [|x c IH]; [done|]. destruct c as [|y c]; [done|].
  change (windows (x :: y :: c))
    with ((x, match c with [] => y | _ => y - 1 end) :: windows (y :: c)).
  change (zip (x :: y :: c) (tail (x :: y :: c)))
    with ((x, y) :: zip (y :: c) (tail (y :: c))).
  cbn [length]. by rewrite IH.
Qed.


Section range.
Variables (start_date end_date : string) (a b : Z).
Hypothesis Hrange : range_ok start_date end_date a b.

Lemma range_bounds o : a ≤ o ≤ b → MINORDINAL ≤ o ≤ MAXORDINAL.
Proof. destruct Hrange as (_ & _ & ? & ? & _). lia. Qed.

Lemma strptime_text o : a ≤ o ≤ b → strptime (text o) ISO = Some (midnight o).
Proof. destruct Hrange as (_ & _ & _ & _ & Hrt). apply Hrt. Qed.

Lemma text_inj o1 o2 : a ≤ o1 ≤ b → a ≤ o2 ≤ b → text o1 = text o2 → o1 = o2.
Proof.
  intros H1 H2 Heq. pose proof (strptime_text o1 H1) as Hp.
  rewrite Heq, strptime_text in Hp by done. by injection Hp.
Qed.

Lemma day_inj o1 o2 : a ≤ o1 ≤ b → a ≤ o2 ≤ b → day o1 = day o2 → o1 = o2.
Proof. intros H1 H2 [=]. by apply text_inj. Qed.

Lemma as_date_day o :
  a ≤ o ≤ b → as_date (day o) (Some ISO) = Ok (VDatetime (midnight o)).
Proof. intros Ho. unfold as_date, day. by rewrite strptime_text. Qed.


Lemma generate_date_range_whole :
  a ≤ b →
  generate_date_range (VStr start_date) (VStr end_date) (Some ISO)
  = (day <$> count_from a 1 (Z.to_nat (b - a + 1)), None).
Proof.
  intros. destruct Hrange as (Hs & He & ? & ? & _).
  apply generate_date_range_text; done.
Qed.

Lemma n_cuts_range : n_cuts start_date end_date = Ok (ceil_div (Z.abs (b - a)) 365).
Proof.
  destruct Hrange as (Hs & He & _). unfold n_cuts, as_date.
  rewrite Hs, He. cbn [mbind result_bind py_sub_days midnight dt_day dt_time].
  rewrite Z.sub_diag, Zdiv_0_l, Z.add_0_r. by rewrite py_ceil_div_365 by lia.
Qed.

(** *** The loop of the orchestrator over the samples *)

Lemma fetch_window_day x y (is_last_pair : bool) :
  a ≤ x → x < y → y ≤ b →
  fetch_window (day x, day y) is_last_pair
  = Ok (day x, day (if is_last_pair then y else y - 1)).
Proof.
  intros Hx Hxy Hy. pose proof (range_bounds y). pose proof (range_bounds (y - 1)).
  unfold fetch_window. cbn [fst snd]. rewrite as_date_day by lia.
  cbn [mbind result_bind py_add_days dt_day dt_time midnight].
  destruct is_last_pair; cbn [Z.opp].
  - rewrite Z.add_0_r.
    replace ((MINORDINAL <=? y) && (y <=? MAXORDINAL)) with true
      by (symmetry; apply andb_true_iff; lia).
    reflexivity.
  - replace (y + - (1)) with (y - 1) by lia.
    replace ((MINORDINAL <=? y - 1) && (y - 1 <=? MAXORDINAL)) with true
      by (symmetry; apply andb_true_iff; lia).
    reflexivity.
Qed.

Lemma zip_day (l k : list Z) : zip (day <$> l) (day <$> k) = day_pair <$> zip l k.
Proof.
  revert k. induction l as [|x l IH]; intros [|y k]; [done..|].
  cbn. by rewrite <- IH.
Qed.

Lemma day_pair_eq x y : day_pair (x, y) = (day x, day y).
Proof. done. Qed.

Lemma zip_is_last_cons {T} (p q : T) rest :
  zip_is_last (p :: q :: rest, None)
  = ((p, false) :: (zip_is_last (q :: rest, None)).1, (zip_is_last (q :: rest, None)).2).
Proof. done. Qed.

Lemma fetch_loop_chain x c :
  StronglySorted Z.lt (x :: c) → Forall (λ o, a ≤ o ≤ b) (x :: c) → c ≠ [] →
  (zip_is_last (day_pair <$> zip (x :: c) c, None)).2 = None ∧
  fetch_loop (zip_is_last (day_pair <$> zip (x :: c) c, None)).1 None
  = fetch_each (day_pair <$> windows (x :: c)) ∧
  omap (λ tp, match fetch_window tp.1 tp.2 with Ok w => Some w | Raise _ => None end)
       (zip_is_last (day_pair <$> zip (x :: c) c, None)).1
  = day_pair <$> windows (x :: c).
Proof.
  revert x. induction c as [|y c IH]; intros x Hsorted Hall Hne; [done|].
  apply StronglySorted_cons in Hsorted as [Hlt Hsorted].
  apply Forall_cons in Hlt as [Hxy _]. apply Forall_cons in Hall as [Hx Hall].
  pose proof (Forall_inv Hall) as Hy. cbn beta in Hx, Hy.
  destruct c as [|z c].
  - cbn [zip zip_with fmap list_fmap windows zip_is_last zip_is_last_loop fst snd yield].
    cbn [fetch_loop fetch_each omap list_omap]. rewrite !day_pair_eq. cbn [fst snd].
    rewrite fetch_window_day by lia. done.
  - destruct (IH y Hsorted Hall ltac:(done)) as (Hend & Hloop & Hplan).
    change (zip (x :: y :: z :: c) (y :: z :: c))
      with ((x, y) :: (y, z) :: zip (z :: c) c).
    change (zip (y :: z :: c) (z :: c)) with ((y, z) :: zip (z :: c) c) in *.
    cbn [fmap list_fmap] in *. rewrite zip_is_last_cons. cbn [fst snd].
    split; [done|].
    cbn [fetch_loop omap list_omap]. rewrite !day_pair_eq. cbn [fst snd].
    rewrite fetch_window_day by lia. rewrite !day_pair_eq in Hloop, Hplan.
    rewrite Hloop, Hplan.
    change (windows (x :: y :: z :: c)) with ((x, y - 1) :: windows (y :: z :: c)).
    done.
Qed.

Lemma generate_date_pairs_samples n c :
  a ≤ b → n ≠ 0 →
  narrowed_items_with_final (count_from a 1 (Z.to_nat (b - a + 1))) n = Ok c →
  generate_date_pairs (VStr start_date) (VStr end_date) n
  = (day_pair <$> zip c (tail c), None).
Proof.
  intros Hab Hn Hc. unfold generate_date_pairs, generate_item_pairs.
  rewrite (proj2 (Z.eqb_neq _ _)) by done.
  rewrite generate_date_range_whole by done. cbn [fst snd].
  rewrite (narrowed_items_with_final_fmap day _ c); [|
    intros x y Hx%elem_of_count_from Hy%elem_of_count_from; apply day_inj; lia | done ].
  cbn [eval]. by rewrite <- fmap_tail, zip_day.
Qed.

(** The run over a range of at least two days: the loop fetches the
windows over the samples of the range, one after the other. *)
Lemma run_samples :
  a < b →
  ∃ c, narrowed_items_with_final (count_from a 1 (Z.to_nat (b - a + 1)))
         (ceil_div (b - a) 365) = Ok (a :: c) ∧
       c ≠ [] ∧ last (a :: c) = Some b ∧
       StronglySorted Z.lt (a :: c) ∧ Forall (λ o, a ≤ o ≤ b) (a :: c) ∧
       generate_date_pairs (VStr start_date) (VStr end_date) (ceil_div (b - a) 365)
       = (day_pair <$> zip (a :: c) c, None) ∧
       get_exr_timeseries start_date end_date = fetch_each (day_pair <$> windows (a :: c)) ∧
       planned_windows start_date end_date = day_pair <$> windows (a :: c).
Proof.
  intros Hab.
  pose proof (ceil_div_pos (b - a) 365 ltac:(lia) ltac:(lia)) as Hn.
  pose proof (ceil_div_365_le (b - a) ltac:(lia)) as Hle.
  destruct (samples_chain a (Z.to_nat (b - a - 1)) (ceil_div (b - a) 365)
              ltac:(lia) ltac:(lia))
    as (c & Hc & Hne & Hlast & Hsorted & Hall).
  replace (S (S (Z.to_nat (b - a - 1)))) with (Z.to_nat (b - a + 1)) in Hc by lia.
  replace (a + Z.of_nat (S (Z.to_nat (b - a - 1)))) with b in Hlast, Hall by lia.
  pose proof (generate_date_pairs_samples (ceil_div (b - a) 365) (a :: c)
                ltac:(lia) ltac:(lia) Hc) as Hpairs.
  cbn [tail] in Hpairs.
  destruct (fetch_loop_chain a c Hsorted Hall Hne) as (Hend & Hloop & Hplan).
  exists c. repeat split; try done.
  - unfold get_exr_timeseries. rewrite n_cuts_range, Z.abs_eq by lia.
    rewrite Hpairs, Hend. done.
  - unfold planned_windows. rewrite n_cuts_range, Z.abs_eq by lia.
    by rewrite Hpairs.
Qed.

(** *** The boundary shift *)


(** *** A fetch that fails *)

Lemma planned_windows_nonempty : planned_windows start_date end_date ≠ [] → a ≠ b.
Proof.
  intros Hplan <-. apply Hplan. destruct Hrange as (Hs & He & _).
  destruct (zero_day_span _ _ _ Hs He) as (Hn & Hpairs & _).
  unfold planned_windows. by rewrite Hn, Hpairs.
Qed.

(** C8, amended. When the fetch of the [k]-th window fails after the
fetches of the windows before it succeeded, the consumer sees the rows of
the windows before it, in order, then the rows that the failing fetch had
yielded before it raised, then the error; the fetches made are those of
the first [k] windows and no other. *)
Theorem stops_at_failed_fetch before w after partial ex :
  a ≤ b →
  planned_windows start_date end_date = before ++ w :: after →
  Forall (λ w', (get_exr_366_days w'.1 w'.2).2 = None) before →
  get_exr_366_days w.1 w.2 = (partial, Some ex) →
  get_exr_timeseries start_date end_date
  = Run (fetched_rows before ++ partial) (Some ex) (before ++ [w]).
Proof.
  intros Hab Hplan Hbefore Hw.
  assert (a ≠ b) as Hne.
  { apply planned_windows_nonempty. rewrite Hplan. by destruct before. }
  destruct (run_samples ltac:(lia)) as (c & _ & _ & _ & _ & _ & _ & Hrun & Hplanned).
  rewrite Hrun, <- Hplanned, Hplan. by apply fetch_each_fail.
Qed.

(** *** No date twice, every date once *)





(** *** The window limit *)

Lemma get_exr_366_days_too_long x y :
  a ≤ x ≤ b → a ≤ y ≤ b → 365 < y - x →
  get_exr_366_days (day x) (day y) = raise AssertionError.
Proof.
  intros Hx Hy Hlong. unfold get_exr_366_days. rewrite !as_date_day by done.
  cbn [eval py_sub_days midnight dt_day dt_time].
  rewrite Z.sub_diag, Zdiv_0_l, Z.add_0_r.
  by rewrite (proj2 (Z.leb_gt _ _)) by lia.
Qed.

Lemma samples_366 :
  b = a + 133590 →
  narrowed_items_with_final (count_from a 1 (Z.to_nat (b - a + 1))) (ceil_div (b - a) 365)
  = Ok (count_from a 366 (365 + 1)).
Proof.
  intros ->. replace (a + 133590 - a) with 133590 by lia.
  change (ceil_div 133590 365) with 366.
  replace (Z.to_nat (133590 + 1)) with (365 * 366 + 1)%nat by lia.
  unfold narrowed_items_with_final, item_last, slice_step, mbind, result_bind.
  rewrite count_from_length.
  replace (Z.of_nat (365 * 366 + 1)) with 133591 by lia.
  rewrite py_ceil_div_le by lia.
  change (ceil_div 133591 366) with 366.
  change (366 =? 0) with false. change (0 <? 366) with true. cbv iota.
  change (Z.to_nat 366 - 1)%nat with 365%nat.
  rewrite (every_count_from 365 a 365).
  replace (last (count_from a 1 (365 * 366 + 1))) with (Some (a + 133590)).
  2:{ replace (365 * 366 + 1)%nat with (S (365 * 366)) by lia.
      rewrite count_from_last. f_equal; lia. }
  rewrite bool_decide_eq_true_2; [by rewrite app_nil_r|].
  apply last_Some_elem_of. change (365 + 1)%nat with (S 365).
  rewrite count_from_last. f_equal; lia.
Qed.

(** C3, where the code departs from it: over a range of 133590 days
(366 windows of 365 days by the count, 365 windows of 366 days by the
stride) the last window is not shifted and spans 366 days, so that the
assertion of [get_exr_366_days] fails on it; a run in which every fetch
of at most 365 days succeeds ends with that [AssertionError]. *)
Theorem window_limit_exceeded :
  b = a + 133590 →
  last (planned_windows start_date end_date) = Some (day (b - 366), day b) ∧
  get_exr_366_days (day (b - 366)) (day b) = raise AssertionError ∧
  ((∀ x y, a ≤ x → x ≤ y → y ≤ b → y - x ≤ 365 →
           (get_exr_366_days (day x) (day y)).2 = None) →
   raised (get_exr_timeseries start_date end_date) = Some AssertionError ∧
   last (fetches (get_exr_timeseries start_date end_date)) = Some (day (b - 366), day b)).
Proof.
  intros Hb.
  destruct (run_samples ltac:(lia)) as (c & Hc & _ & _ & _ & _ & _ & Hrun & Hplan).
  rewrite (samples_366 Hb) in Hc. apply Ok_inj in Hc. rewrite <- Hc in Hrun, Hplan.
  change (365 + 1)%nat with (S (S 364)) in Hrun, Hplan.
  rewrite windows_count_from, fmap_app in Hrun, Hplan.
  cbn [fmap list_fmap] in Hrun, Hplan. rewrite day_pair_eq in Hrun, Hplan.
  replace (a + Z.of_nat 364 * 366) with (b - 366) in Hrun, Hplan by lia.
  replace (a + Z.of_nat 365 * 366) with b in Hrun, Hplan by lia.
  assert (get_exr_366_days (day (b - 366)) (day b) = raise AssertionError) as Hlong
    by (apply get_exr_366_days_too_long; lia).
  split; [by rewrite Hplan, last_snoc|]. split; [done|].
  intros Hserved. rewrite Hrun.
  rewrite (fetch_each_fail _ (day (b - 366), day b) [] [] AssertionError); [|
    |exact Hlong].
  - cbn [raised fetches]. by rewrite last_snoc.
  - apply Forall_fmap, Forall_forall. intros [x y] Hw.
    apply list_elem_of_fmap in Hw as (x' & [= -> ->] & (i & Hi & ->)%elem_of_count_from_step).
    cbn [compose day_pair fst snd]. apply Hserved; lia.
Qed.
End range.
End properties.

(** ** Runs on the calendar *)

Lemma gregorian_range_ok service s e a b :
  Gregorian.parse_text s ISO = Some (midnight a) →
  Gregorian.parse_text e ISO = Some (midnight b) →
  MINORDINAL ≤ a → b ≤ MAXORDINAL →
  @range_ok (Gregorian.runtime service) s e a b.
Proof.
  intros Hs He Ha Hb. repeat split; try done.
  intros o Ho. apply GregorianFacts.parse_format_text. lia.
Qed.

Lemma gregorian_days_ok service x y :
  MINORDINAL ≤ x ≤ MAXORDINAL → MINORDINAL ≤ y ≤ MAXORDINAL →
  @range_ok (Gregorian.runtime service)
    (@text (Gregorian.runtime service) x) (@text (Gregorian.runtime service) y) x y.
Proof.
  intros Hx Hy.
  apply gregorian_range_ok; try lia; apply GregorianFacts.parse_format_text; lia.
Qed.



(** The service [Service.empty] makes every fetch of at most 365 days
succeed. *)
Lemma empty_service_fetch a b x y :
  MINORDINAL ≤ a → b ≤ MAXORDINAL → a ≤ x → x ≤ y → y ≤ b → y - x ≤ 365 →
  (@get_exr_366_days (Gregorian.runtime Service.empty)
     (@day (Gregorian.runtime Service.empty) x)
     (@day (Gregorian.runtime Service.empty) y)).2 = None.
Proof.
  intros Ha Hb Hx Hxy Hy Hspan. set (G := Gregorian.runtime Service.empty).
  pose proof (gregorian_days_ok Service.empty x y ltac:(lia) ltac:(lia)) as Hr. fold G in Hr.
  unfold get_exr_366_days. rewrite !(as_date_day _ _ _ _ Hr) by lia.
  cbn [eval py_sub_days midnight dt_day dt_time].
  by rewrite Z.sub_diag, Zdiv_0_l, Z.add_0_r, (proj2 (Z.leb_le _ _)) by lia.
Qed.

(** ** The theorems at concrete inputs *)

Lemma as_date_text_is_datetime_witness :
  let G := Gregorian.runtime Service.unreachable in
  @strptime G "2023-01-01" ISO = Some (midnight 738521) ∧
  @as_date G (VStr "2023-01-01") (Some ISO) = Ok (VDatetime (midnight 738521)) ∧
  @as_date G (VDatetime (midnight 738521)) (Some ISO) = Ok (VDate 738521) ∧
  @as_date G (VDate 738521) (Some ISO) = Ok (VDate 738521).
Proof.
  intros G.
  assert (@strptime G "2023-01-01" ISO = Some (midnight 738521)) as Hs
    by (vm_compute; reflexivity).
  split; [exact Hs|]. exact (@as_date_text_is_datetime G _ _ _ Hs).
Defined.

Lemma generate_date_range_mixed_witness :
  let G := Gregorian.runtime Service.unreachable in
  @strptime G "2023-01-01" ISO = Some (midnight 738521) ∧
  @generate_date_range G (VStr "2023-01-01") (VDate 738523) (Some ISO) = raise TypeError ∧
  @generate_date_range G (VDate 738523) (VStr "2023-01-01") (Some ISO) = raise TypeError.
Proof.
  intros G.
  assert (@strptime G "2023-01-01" ISO = Some (midnight 738521)) as Hs
    by (vm_compute; reflexivity).
  split; [exact Hs|]. exact (@generate_date_range_mixed G _ _ _ 738523 Hs).
Defined.

Lemma zero_day_span_witness :
  let G := Gregorian.runtime Service.exact in
  @strptime G "2023-01-01" ISO = Some (midnight 738521) ∧
  @n_cuts G "2023-01-01" "2023-01-01" = Ok 0 ∧
  @generate_date_pairs G (VStr "2023-01-01") (VStr "2023-01-01") 0 = stop ∧
  @get_exr_timeseries G "2023-01-01" "2023-01-01" = Run [] None [].
Proof.
  intros G.
  assert (@strptime G "2023-01-01" ISO = Some (midnight 738521)) as Hs
    by (vm_compute; reflexivity).
  split; [exact Hs|]. exact (@zero_day_span G _ _ _ Hs Hs).
Defined.




(** What the run of the witness above fetches: the first window ends the
day before the boundary, the second starts on it. *)
Example two_windows :
  fetches (@get_exr_timeseries (Gregorian.runtime Service.exact) "2023-01-01" "2024-06-15")
  = [(VStr "2023-01-01", VStr "2023-09-23"); (VStr "2023-09-24", VStr "2024-06-15")].
Proof. vm_compute. reflexivity. Qed.

(** C8 as it is stated fails when the failing fetch has yielded rows: the
only window of the range yields the row of USD and then raises on the
[null] rate of EUR; the consumer sees that row before the error, and not
just the rows of the windows before the failing one (there is none). *)
Lemma failed_fetch_rows_are_seen :
  let G := Gregorian.runtime Service.null_rate in
  let r := @get_exr_timeseries G "2023-01-01" "2023-01-03" in
  let w := (VStr "2023-01-01", VStr "2023-01-03") in
  let row := {| date := "2023-01-01"; currency := "USD"; rate := 1 |} in
  @planned_windows G "2023-01-01" "2023-01-03" = [] ++ w :: [] ∧
  @get_exr_366_days G w.1 w.2 = ([row], Some TypeError) ∧
  r = Run [row] (Some TypeError) [w] ∧
  rows r ≠ @fetched_rows G [].
Proof.
  intros G r w row.
  assert (r = Run [row] (Some TypeError) [w]) as -> by (vm_compute; reflexivity).
  repeat split; try (vm_compute; reflexivity). discriminate.
Qed.

Lemma stops_at_failed_fetch_witness :
  let G := Gregorian.runtime Service.unavailable_once in
  let before := [(VStr "2021-01-01", VStr "2021-10-21")] in
  let w := (VStr "2021-10-22", VStr "2022-08-11") in
  let after := [(VStr "2022-08-12", VStr "2023-06-01")] in
  @range_ok G "2021-01-01" "2023-06-01" 737791 738672 ∧
  737791 ≤ 738672 ∧
  @planned_windows G "2021-01-01" "2023-06-01" = before ++ w :: after ∧
  Forall (λ w', (@get_exr_366_days G w'.1 w'.2).2 = None) before ∧
  @get_exr_366_days G w.1 w.2 = ([], Some HTTPError) ∧
  @get_exr_timeseries G "2021-01-01" "2023-06-01"
  = Run (@fetched_rows G before ++ []) (Some HTTPError) (before ++ [w]).
Proof.
  intros G before w after.
  assert (@range_ok G "2021-01-01" "2023-06-01" 737791 738672) as Hr.
  { apply gregorian_range_ok; [vm_compute; reflexivity..|unfold MINORDINAL; lia|unfold MAXORDINAL; lia]. }
  assert (@planned_windows G "2021-01-01" "2023-06-01" = before ++ w :: after) as Hplan
    by (vm_compute; reflexivity).
  assert (Forall (λ w', (@get_exr_366_days G w'.1 w'.2).2 = None) before) as Hbefore
    by (repeat constructor; vm_compute; reflexivity).
  assert (@get_exr_366_days G w.1 w.2 = ([], Some HTTPError)) as Hw
    by (vm_compute; reflexivity).
  split; [exact Hr|]. split; [lia|]. split; [exact Hplan|]. split; [exact Hbefore|].
  split; [exact Hw|].
  exact (@stops_at_failed_fetch G _ _ _ _ Hr before w after [] HTTPError ltac:(lia) Hplan Hbefore Hw).
Defined.

(** The rows of the first window are those that the consumer sees. *)
Example rows_before_failure :
  rows (@get_exr_timeseries (Gregorian.runtime Service.unavailable_once)
          "2021-01-01" "2023-06-01")
  = [{| date := "2021-01-01"; currency := "USD"; rate := 1 |}].
Proof. vm_compute. reflexivity. Qed.

Lemma window_limit_exceeded_witness :
  let G := Gregorian.runtime Service.empty in
  @range_ok G "1600-01-01" "1965-10-04" 584023 717613 ∧
  717613 = 584023 + 133590 ∧
  last (@planned_windows G "1600-01-01" "1965-10-04")
  = Some (VStr "1964-10-03", VStr "1965-10-04") ∧
  @get_exr_366_days G (VStr "1964-10-03") (VStr "1965-10-04") = raise AssertionError ∧
  raised (@get_exr_timeseries G "1600-01-01" "1965-10-04") = Some AssertionError ∧
  last (fetches (@get_exr_timeseries G "1600-01-01" "1965-10-04"))
  = Some (VStr "1964-10-03", VStr "1965-10-04").
Proof.
  intros G.
  assert (@range_ok G "1600-01-01" "1965-10-04" 584023 717613) as Hr.
  { apply gregorian_range_ok; [vm_compute; reflexivity..|unfold MINORDINAL; lia|unfold MAXORDINAL; lia]. }
  assert ((@day G (717613 - 366), @day G 717613)
          = (VStr "1964-10-03", VStr "1965-10-04")) as Hd by (vm_compute; reflexivity).
  pose proof (@window_limit_exceeded G _ _ _ _ Hr eq_refl) as (Hlast & Hlong & Hrun).
  destruct Hrun as [Hraised Hfetches].
  { intros x y Hx Hxy Hy Hspan.
    apply (empty_service_fetch 584023 717613); unfold MINORDINAL, MAXORDINAL; lia. }
  split; [exact Hr|]. split; [reflexivity|].
  split; [rewrite <- Hd; exact Hlast|].
  split; [vm_compute; reflexivity|].
  split; [exact Hraised|].
  rewrite <- Hd. exact Hfetches.
Defined.

(** * Further properties of the module *)

(** ** The Range Partitioner on any items *)

Section partitioner.
Context {T : Type} `{!EqDecision T}.
Implicit Types l : list T.

Lemma every_short s c l : (length l ≤ c)%nat → every s c l = [].
Proof.
  revert c. induction l as [|x l IH]; intros c Hc; [done|].
  cbn [length] in Hc. destruct c as [|c]; [lia|]. cbn [every]. apply IH. lia.
Qed.

Lemma every_all l : every 0 0 l = l.
Proof. induction l as [|x l IH]; [done|]. cbn [every]. by rewrite IH. Qed.

(** The index of the last sample is an index of the list. *)
Lemma every_length_bound s c l :
  every s c l ≠ [] → (c + (length (every s c l) - 1) * S s < length l)%nat.
Proof.
  revert c. induction l as [|x l IH]; intros c Hne; [done|].
  destruct c as [|c]; cbn [every length] in *.
  - destruct (every s s l) as [|y t] eqn:Ht; [cbn; lia|].
    specialize (IH s). rewrite Ht in IH. specialize (IH ltac:(done)).
    cbn [length] in *. lia.
  - specialize (IH c Hne). lia.
Qed.

Lemma every_snoc s c l x :
  every s c (l ++ [x]) = every s c l ++ [x] ∨ every s c (l ++ [x]) = every s c l.
Proof.
  revert c. induction l as [|y l IH]; intros c.
  - destruct c; [by left|by right].
  - destruct c as [|c]; cbn [app every].
    + destruct (IH s) as [->| ->]; [by left|by right].
    + apply IH.
Qed.

Lemma ceil_div_covers len n : 1 ≤ n → len ≤ ceil_div len n * n.
Proof.
  intros Hn. unfold ceil_div.
  pose proof (Z.div_mod (- len) n ltac:(lia)) as Hdiv.
  pose proof (Z.mod_pos_bound (- len) n ltac:(lia)) as Hmod. nia.
Qed.

Lemma zip_tail_length (wf : list T) : length (zip wf (tail wf)) = (length wf - 1)%nat.
Proof. rewrite length_zip_with. destruct wf; cbn [tail length]; lia. Qed.

Lemma pairs_length_bound (l : list T) n :
  1 ≤ n → Z.of_nat (length (generate_item_pairs (l, None) n).1) ≤ n.
Proof.
  intros Hn. unfold generate_item_pairs. rewrite (proj2 (Z.eqb_neq _ _)) by lia.
  cbn [fst snd]. unfold narrowed_items_with_final, item_last, slice_step, mbind, result_bind.
  unfold py_ceil_div. destruct (rounds_to_zero _ _); [cbn; lia|].
  destruct l as [|x l].
  { cbn [length]. change (Z.of_nat 0) with 0. rewrite ceil_div_zero. cbn. lia. }
  set (len := length (x :: l)).
  pose proof (ceil_div_pos (Z.of_nat len) n ltac:(cbn [len length]; lia) ltac:(lia)) as Hk.
  pose proof (ceil_div_covers (Z.of_nat len) n Hn) as Hcover.
  rewrite (proj2 (Z.eqb_neq _ _)), (proj2 (Z.ltb_lt _ _)) by lia.
  set (s := (Z.to_nat (ceil_div (Z.of_nat len) n) - 1)%nat) in *.
  destruct (last (x :: l)) as [final|] eqn:Hlast; [|by apply last_None in Hlast].
  cbn [eval fst]. rewrite zip_tail_length, length_app.
  pose proof (every_length_bound s 0 (x :: l) ltac:(done)) as Hbound. fold len in Hbound.
  assert (Z.of_nat (S s) = ceil_div (Z.of_nat len) n) as Hs by (unfold s; lia).
  set (m := length (every s 0 (x :: l))) in *.
  assert (Z.of_nat m ≤ n) as Hm by nia.
  destruct (bool_decide _); cbn [length]; lia.
Qed.

(** X1. For [n >= 1] the Range Partitioner yields at most [n] pairs,
whatever the items. *)
Theorem generate_item_pairs_at_most_n l n :
  1 ≤ n → Z.of_nat (length (generate_item_pairs (l, None) n).1) ≤ n.
Proof. apply pairs_length_bound. Qed.

Lemma zip_tail_contiguous (wf : list T) i x y x' y' :
  zip wf (tail wf) !! i = Some (x, y) → zip wf (tail wf) !! S i = Some (x', y') → y = x'.
Proof.
  intros (? & ? & [= <- <-] & _ & Hy)%lookup_zip_with_Some
         (? & ? & [= <- <-] & Hx' & _)%lookup_zip_with_Some.
  rewrite lookup_tail in Hy. rewrite Hy in Hx'. by injection Hx'.
Qed.

(** X2. The pairs that the Range Partitioner yields are contiguous: each
pair starts with the item the pair before it ended with. *)
Theorem generate_item_pairs_contiguous (iterator : gen T) n i x y x' y' :
  (generate_item_pairs iterator n).1 !! i = Some (x, y) →
  (generate_item_pairs iterator n).1 !! S i = Some (x', y') →
  y = x'.
Proof.
  unfold generate_item_pairs. destruct (n =? 0); [done|].
  destruct iterator.2; [done|].
  destruct (narrowed_items_with_final iterator.1 n) as [wf|]; [|done].
  apply zip_tail_contiguous.
Qed.

Lemma last_zip_tail x (c : list T) : c ≠ [] → snd <$> last (zip (x :: c) c) = last c.
Proof.
  revert x. induction c as [|y c IH]; intros x Hne; [done|].
  destruct c as [|z c]; [done|].
  change (zip (x :: y :: z :: c) (y :: z :: c)) with ((x, y) :: zip (y :: z :: c) (z :: c)).
  change (last ((x, y) :: zip (y :: z :: c) (z :: c)))
    with (last (zip (y :: z :: c) (z :: c))).
  rewrite IH by done. by rewrite last_cons_cons.
Qed.

(** X3. When the final item of the input does not occur before the end
(and the input has at least two items), the pairs span the input for
every [n >= 1] so small that the quotient of the length by [n] does not
round to zero, [n < len * 2^1075]: there is a pair, the first pair
starts with the first item and the last pair ends with the final item. *)
Theorem generate_item_pairs_spans first l final n :
  1 ≤ n → n < Z.of_nat (length (first :: l ++ [final])) * UNDERFLOW →
  final ∉ first :: l →
  ∃ pairs, generate_item_pairs (first :: l ++ [final], None) n = (pairs, None) ∧
           fst <$> head pairs = Some first ∧
           snd <$> last pairs = Some final.
Proof.
  intros Hn Hsmall Hfinal. unfold generate_item_pairs. rewrite (proj2 (Z.eqb_neq _ _)) by lia.
  cbn [fst snd]. unfold narrowed_items_with_final, item_last, slice_step, mbind, result_bind.
  rewrite py_ceil_div_exact by lia.
  set (all_items := first :: l ++ [final]).
  pose proof (ceil_div_pos (Z.of_nat (length all_items)) n
                ltac:(cbn [all_items length]; lia) ltac:(lia)) as Hk.
  rewrite (proj2 (Z.eqb_neq _ _)), (proj2 (Z.ltb_lt _ _)) by lia.
  set (s := (Z.to_nat _ - 1)%nat).
  assert (last all_items = Some final) as ->.
  { unfold all_items. by rewrite app_comm_cons, last_snoc. }
  cbn [eval]. unfold all_items. cbn [every].
  destruct (every_snoc s s l final) as [Hsnoc|Hsnoc]; rewrite Hsnoc; clear Hsnoc.
  - rewrite bool_decide_eq_true_2 by (right; apply elem_of_app; right; left).
    rewrite app_nil_r. eexists. split; [done|].
    cbn [tail]. split.
    + by destruct (every s s l).
    + rewrite last_zip_tail by (by destruct (every s s l)). apply last_snoc.
  - rewrite bool_decide_eq_false_2.
    2:{ intros [->|Hin%every_elem_of]%elem_of_cons; apply Hfinal; [left|by right]. }
    eexists. split; [done|]. cbn [tail app]. split.
    + by destruct (every s s l).
    + rewrite last_zip_tail by (by destruct (every s s l)). apply last_snoc.
Qed.

Lemma ceil_div_small len n : 1 ≤ len → len ≤ n → ceil_div len n = 1.
Proof.
  intros Hlen Hn. unfold ceil_div.
  assert ((- len) `div` n = -1) as ->; [|done].
  symmetry. apply (Z.div_unique_pos (- len) n (-1) (n - len)); lia.
Qed.

(** X4. With as many windows asked for as there are items, or more, but
so few that the quotient of the length by [n] does not round to zero,
[n < len * 2^1075], the stride is 1 and the pairs are all the pairs of
adjacent items. *)
Theorem generate_item_pairs_all_adjacent (l : list T) n :
  l ≠ [] → Z.of_nat (length l) ≤ n → n < Z.of_nat (length l) * UNDERFLOW →
  generate_item_pairs (l, None) n = (zip l (tail l), None).
Proof.
  intros Hne Hn Hsmall.
  assert (1 ≤ Z.of_nat (length l)) by (destruct l; [done|cbn [length]; lia]).
  unfold generate_item_pairs. rewrite (proj2 (Z.eqb_neq _ _)) by lia.
  cbn [fst snd]. unfold narrowed_items_with_final, item_last, slice_step, mbind, result_bind.
  rewrite py_ceil_div_exact by lia.
  rewrite ceil_div_small by lia. cbn [Z.eqb Z.ltb Z.compare Z.to_nat Pos.to_nat Pos.iter_op].
  cbn [Nat.sub]. rewrite every_all.
  destruct (last l) as [final|] eqn:Hlast; [|by apply last_None in Hlast].
  rewrite bool_decide_eq_true_2 by (by apply last_Some_elem_of).
  by rewrite app_nil_r.
Qed.

Lemma ceil_div_by_one len : ceil_div len 1 = len.
Proof. unfold ceil_div. rewrite Z.div_1_r. lia. Qed.

(** X5. With one window asked for, an input of at least two items gives
the one pair of its first and its final item -- unless the two are equal,
when it gives no pair at all. *)
Theorem generate_item_pairs_one first l final :
  generate_item_pairs (first :: l ++ [final], None) 1
  = if decide (first = final) then stop else yield (first, final).
Proof.
  unfold generate_item_pairs. cbn [Z.eqb fst snd].
  unfold narrowed_items_with_final, item_last, slice_step, mbind, result_bind.
  rewrite py_ceil_div_le by (cbn [length]; lia).
  rewrite ceil_div_by_one. cbn [length].
  rewrite (proj2 (Z.eqb_neq _ _)), (proj2 (Z.ltb_lt _ _)) by lia.
  replace (Z.to_nat (Z.of_nat (S (length (l ++ [final])))) - 1)%nat
    with (length (l ++ [final])) by lia.
  cbn [every]. rewrite every_short by done.
  rewrite app_comm_cons, last_snoc. cbn [eval].
  destruct (decide (first = final)) as [->|Hne].
  - by rewrite bool_decide_eq_true_2 by left.
  - rewrite bool_decide_eq_false_2; [done|].
    by intros ->%list_elem_of_singleton.
Qed.

Lemma zip_is_last_loop_raising x l e :
  zip_is_last_loop x l (Some e) = ((λ y, (y, false)) <$> removelast (x :: l), Some e).
Proof.
  revert x. induction l as [|y l IH]; intros x; [done|].
  cbn [zip_is_last_loop]. rewrite IH. by destruct l.
Qed.

(** X6. On an input that raises after its items, the Lookahead Tagger
yields every item but the last one, each tagged false, and then raises
the same error: the item it holds back to look ahead is never yielded. *)
Theorem zip_is_last_raising l e :
  zip_is_last (l, Some e) = ((λ y, (y, false)) <$> removelast l, Some e).
Proof. destruct l as [|x l]; [done|]. apply zip_is_last_loop_raising. Qed.
End partitioner.

Lemma generate_item_pairs_at_most_n_witness :
  1 ≤ 3 ∧
  Z.of_nat (length (generate_item_pairs ([0; 1; 2; 3; 4; 5; 6; 7; 8; 9], None) 3).1) ≤ 3.
Proof.
  split; [lia|]. apply (generate_item_pairs_at_most_n [0; 1; 2; 3; 4; 5; 6; 7; 8; 9] 3). lia.
Defined.

Lemma generate_item_pairs_contiguous_witness :
  (generate_item_pairs ([0; 1; 2; 3; 4; 5; 6; 7; 8; 9], None) 3).1 !! 0%nat = Some (0, 4) ∧
  (generate_item_pairs ([0; 1; 2; 3; 4; 5; 6; 7; 8; 9], None) 3).1 !! 1%nat = Some (4, 8) ∧
  4 = 4.
Proof.
  split; [reflexivity|]. split; [reflexivity|].
  apply (generate_item_pairs_contiguous ([0; 1; 2; 3; 4; 5; 6; 7; 8; 9], None) 3 0 0 4 4 8);
    reflexivity.
Defined.

Lemma generate_item_pairs_spans_witness :
  1 ≤ 3 ∧ 3 < Z.of_nat (length (0 :: [1; 2; 3; 4; 5; 6; 7; 8] ++ [9])) * UNDERFLOW ∧
  (9 ∉ 0 :: [1; 2; 3; 4; 5; 6; 7; 8]) ∧
  ∃ pairs, generate_item_pairs (0 :: [1; 2; 3; 4; 5; 6; 7; 8] ++ [9], None) 3 = (pairs, None) ∧
           fst <$> head pairs = Some 0 ∧
           snd <$> last pairs = Some 9.
Proof.
  assert (3 < Z.of_nat (length (0 :: [1; 2; 3; 4; 5; 6; 7; 8] ++ [9])) * UNDERFLOW) as Hsmall
    by (vm_compute; reflexivity).
  assert (9 ∉ 0 :: [1; 2; 3; 4; 5; 6; 7; 8]) as Hfinal.
  { intros Hin. repeat (apply elem_of_cons in Hin as [Hin|Hin]; [discriminate|]).
    by apply elem_of_nil in Hin. }
  split; [lia|]. split; [exact Hsmall|]. split; [exact Hfinal|].
  apply (generate_item_pairs_spans 0 [1; 2; 3; 4; 5; 6; 7; 8] 9 3);
    [lia|exact Hsmall|exact Hfinal].
Defined.

Lemma generate_item_pairs_all_adjacent_witness :
  [1; 2; 1] ≠ [] ∧ Z.of_nat (length [1; 2; 1]) ≤ 5 ∧
  5 < Z.of_nat (length [1; 2; 1]) * UNDERFLOW ∧
  generate_item_pairs ([1; 2; 1], None) 5 = ([(1, 2); (2, 1)], None).
Proof.
  assert (5 < Z.of_nat (length [1; 2; 1]) * UNDERFLOW) as Hsmall
    by (vm_compute; reflexivity).
  split; [done|]. split; [cbn; lia|]. split; [exact Hsmall|].
  apply (generate_item_pairs_all_adjacent [1; 2; 1] 5); [done|cbn; lia|exact Hsmall].
Defined.

(** ** The Date Range Sequencer on endpoints of one kind *)

Section sequencer.
Context `{!Runtime}.

Lemma elem_of_days_between x y k : k ∈ days_between x y → Z.min x y ≤ k ≤ Z.max x y.
Proof.
  unfold days_between. case_decide.
  - intros Hk%elem_of_count_from. lia.
  - intros Hk%count_from_down. lia.
Qed.

Lemma days_between_offsets x y :
  days_between x y
  = Z.add x <$> py_range 0 (y - x + (if x <=? y then 1 else -1)) (if x <=? y then 1 else -1).
Proof.
  unfold days_between. case_decide.
  - rewrite (proj2 (Z.leb_le _ _)), py_range_forward by lia.
    rewrite <- count_from_shift. by rewrite Z.add_0_r.
  - rewrite (proj2 (Z.leb_gt _ _)) by lia.
    replace (y - x + -1) with (y - x - 1) by lia. rewrite py_range_backward by lia.
    rewrite <- count_from_shift, Z.add_0_r. do 2 f_equal. lia.
Qed.

(** X7. Between two structured endpoints, each a date or a datetime, the
sequence is that of their dates (the time of day of a datetime is
dropped): every day from the first to the last, both included, ascending
when [start <= end] and descending otherwise, as dates when there is no
pattern and as text in the pattern otherwise. *)
Theorem generate_date_range_structured start end_ x y _format :
  as_date start _format = Ok (VDate x) → as_date end_ _format = Ok (VDate y) →
  MINORDINAL ≤ x ≤ MAXORDINAL → MINORDINAL ≤ y ≤ MAXORDINAL →
  generate_date_range start end_ _format
  = ((λ d, match _format with
           | None => VDate d
           | Some f => VStr (strftime (midnight d) f)
           end) <$> days_between x y, None).
Proof.
  intros Hstart Hend Hx Hy. unfold generate_date_range. rewrite Hstart, Hend.
  cbn [eval py_le py_sub_days]. rewrite days_between_offsets, <- list_fmap_compose.
  apply for_each_yield. intros k Hk.
  assert (x + k ∈ days_between x y) as Hin.
  { rewrite days_between_offsets. by apply list_elem_of_fmap_2. }
  apply elem_of_days_between in Hin. unfold py_add_days.
  replace ((MINORDINAL <=? x + k) && (x + k <=? MAXORDINAL)) with true
    by (symmetry; apply andb_true_iff; lia).
  by destruct _format.
Qed.

(** X8. Between two text endpoints that parse, in the pattern given, to
the midnights of two days, the sequence is the text of every day from the
first to the last, both included, ascending when [start <= end] and
descending otherwise. *)
Theorem generate_date_range_texts s1 s2 f x y :
  strptime s1 f = Some (midnight x) → strptime s2 f = Some (midnight y) →
  MINORDINAL ≤ x ≤ MAXORDINAL → MINORDINAL ≤ y ≤ MAXORDINAL →
  generate_date_range (VStr s1) (VStr s2) (Some f)
  = ((λ d, VStr (strftime (midnight d) f)) <$> days_between x y, None).
Proof.
  intros Hs1 Hs2 Hx Hy. unfold generate_date_range, as_date. rewrite Hs1, Hs2.
  cbn [eval py_le py_sub_days midnight dt_day dt_time].
  rewrite Z.sub_diag, Zdiv_0_l, Z.add_0_r.
  replace ((x <? y) || (x =? y) && (0 <=? 0)) with (x <=? y).
  2:{ destruct (Z.leb_spec x y), (Z.ltb_spec x y), (Z.eqb_spec x y); cbn; lia || done. }
  rewrite days_between_offsets, <- list_fmap_compose.
  apply for_each_yield. intros k Hk.
  assert (x + k ∈ days_between x y) as Hin.
  { rewrite days_between_offsets. by apply list_elem_of_fmap_2. }
  apply elem_of_days_between in Hin. unfold py_add_days. cbn [dt_day dt_time midnight].
  replace ((MINORDINAL <=? x + k) && (x + k <=? MAXORDINAL)) with true
    by (symmetry; apply andb_true_iff; lia).
  reflexivity.
Qed.
End sequencer.

Lemma generate_date_range_structured_witness :
  let G := Gregorian.runtime Service.unreachable in
  @as_date G (VDatetime (Datetime 738523 3600000000)) None = Ok (VDate 738523) ∧
  @as_date G (VDate 738521) None = Ok (VDate 738521) ∧
  MINORDINAL ≤ 738523 ≤ MAXORDINAL ∧ MINORDINAL ≤ 738521 ≤ MAXORDINAL ∧
  @generate_date_range G (VDatetime (Datetime 738523 3600000000)) (VDate 738521) None
  = ([VDate 738523; VDate 738522; VDate 738521], None).
Proof.
  intros G. split; [reflexivity|]. split; [reflexivity|].
  split; [unfold MINORDINAL, MAXORDINAL; lia|]. split; [unfold MINORDINAL, MAXORDINAL; lia|].
  apply (@generate_date_range_structured G _ _ 738523 738521 None);
    (reflexivity || (unfold MINORDINAL, MAXORDINAL; lia)).
Defined.

Lemma generate_date_range_texts_witness :
  let G := Gregorian.runtime Service.unreachable in
  @strptime G "2023-01-03" ISO = Some (midnight 738523) ∧
  @strptime G "2023-01-01" ISO = Some (midnight 738521) ∧
  MINORDINAL ≤ 738523 ≤ MAXORDINAL ∧ MINORDINAL ≤ 738521 ≤ MAXORDINAL ∧
  @generate_date_range G (VStr "2023-01-03") (VStr "2023-01-01") (Some ISO)
  = ([VStr "2023-01-03"; VStr "2023-01-02"; VStr "2023-01-01"], None).
Proof.
  intros G.
  assert (@strptime G "2023-01-03" ISO = Some (midnight 738523)) as H1 by (vm_compute; reflexivity).
  assert (@strptime G "2023-01-01" ISO = Some (midnight 738521)) as H2 by (vm_compute; reflexivity).
  assert (MINORDINAL ≤ 738523 ≤ MAXORDINAL) as H3 by (unfold MINORDINAL, MAXORDINAL; lia).
  assert (MINORDINAL ≤ 738521 ≤ MAXORDINAL) as H4 by (unfold MINORDINAL, MAXORDINAL; lia).
  split; [exact H1|]. split; [exact H2|]. split; [exact H3|]. split; [exact H4|].
  rewrite (@generate_date_range_texts G _ _ _ _ _ H1 H2 H3 H4). vm_compute. reflexivity.
Defined.

(** ** The Window Fetcher and the response it reads *)

Section fetcher.
Context `{!Runtime}.

Lemma for_each_concat {A B} (f : A → list B) (body : A → gen B) xs :
  (∀ x, x ∈ xs → body x = (f x, None)) →
  for_each xs body = (concat (f <$> xs), None).
Proof.
  induction xs as [|x xs IH]; intros Hbody; [done|].
  cbn [for_each]. rewrite Hbody, IH by set_solver. done.
Qed.

(** X9. A fetch whose window passes the limit and whose response is an
object with, under "rates", an object of days, each an object of numbers
that [float] converts (none is an integer too large for a double),
yields one row per day and currency, in the order of the response, with
the rate that [float] makes of the number, and ends without an error. *)
Theorem get_exr_366_days_rows start_date end_date e s span status fields
    (days : list (string * list (string * Q))) (double : Q → Q) :
  as_date end_date (Some ISO) = Ok e → as_date start_date (Some ISO) = Ok s →
  py_sub_days e s = Ok span → span ≤ 365 →
  requests_get start_date end_date = Response status (Some (JObj fields)) →
  ¬ (400 ≤ status < 600) →
  dict_get fields "rates"
  = Some (JObj ((λ d : string * list (string * Q),
                   (d.1, JObj ((λ c : string * Q, (c.1, JNum c.2)) <$> d.2))) <$> days)) →
  (∀ d c, d ∈ days → c ∈ d.2 → float_of_num c.2 = Some (double c.2)) →
  get_exr_366_days start_date end_date
  = (concat ((λ d : string * list (string * Q),
                (λ c : string * Q,
                   {| date := d.1; currency := c.1; rate := double c.2 |}) <$> d.2)
             <$> days),
     None).
Proof.
  intros He Hs Hspan Hlimit Hget Hstatus Hrates Hfloat. unfold get_exr_366_days.
  rewrite He, Hs. cbn [eval]. rewrite Hspan. cbn [eval].
  rewrite (proj2 (Z.leb_le _ _)) by done. cbn [negb]. rewrite Hget.
  replace ((400 <=? status) && (status <? 600)) with false.
  2:{ symmetry. apply andb_false_iff. rewrite Z.leb_gt, Z.ltb_ge. lia. }
  unfold py_contains, py_getitem. rewrite Hrates.
  rewrite bool_decide_eq_true_2 by done. cbn [eval py_items].
  rewrite (for_each_concat
             (λ entry, match entry.2 with
                       | JObj es =>
                           (λ c, {| date := entry.1; currency := c.1;
                                    rate := match c.2 with JNum q => double q | _ => 0%Q end |})
                           <$> es
                       | _ => []
                       end)).
  - f_equal. rewrite <- list_fmap_compose. f_equal. apply list_fmap_ext.
    intros _ [d cs] _. cbn. rewrite <- list_fmap_compose. by apply list_fmap_ext.
  - intros entry ([d cs] & -> & Hd)%list_elem_of_fmap. cbn [fst snd].
    unfold rates_rows. cbn [eval py_items].
    rewrite (for_each_yield
               (λ c, {| date := d; currency := c.1;
                        rate := match c.2 with JNum q => double q | _ => 0%Q end |})).
    + done.
    + intros c ([cur q] & -> & Hc)%list_elem_of_fmap.
      pose proof (Hfloat (d, cs) (cur, q) Hd Hc) as Hq. cbn [fst snd] in *.
      unfold py_float. by rewrite Hq.
Qed.

(** X10. A fetch whose response is not an object with an object under
"rates" yields no row and raises: whatever the body and the status are,
and whether or not the window passes the limit. *)
Theorem get_exr_366_days_malformed start_date end_date status body :
  requests_get start_date end_date = Response status body →
  (∀ fields days, body = Some (JObj fields) → dict_get fields "rates" ≠ Some (JObj days)) →
  (get_exr_366_days start_date end_date).1 = [] ∧
  (get_exr_366_days start_date end_date).2 ≠ None.
Proof.
  intros Hget Hbody. unfold get_exr_366_days. rewrite Hget.
  destruct (as_date end_date _); [|done]. destruct (as_date start_date _); [|done].
  cbn [eval]. destruct (py_sub_days _ _) as [span|]; [|done]. cbn [eval].
  destruct (negb _); [done|]. destruct (_ && _); [done|].
  destruct body as [json_resp|]; [|done].
  destruct json_resp as [| | | text|items|fields]; try done.
  - cbn [py_contains eval]. by destruct (has_substring _ _).
  - cbn [py_contains eval]. by destruct (existsb _ _).
  - cbn [py_contains py_getitem eval].
    destruct (dict_get fields "rates") as [rates|] eqn:Hrates.
    + rewrite bool_decide_eq_true_2 by done. cbn [eval].
      destruct rates as [| | | | |days]; try done.
      by destruct (Hbody fields days).
    + by rewrite bool_decide_eq_false_2 by (by intros [??]).
Qed.
End fetcher.

Lemma get_exr_366_days_rows_witness :
  let G := Gregorian.runtime Service.unavailable_once in
  let fields := [("rates", JObj [Service.usd "2021-01-01"])] in
  @as_date G (VStr "2021-10-21") (Some ISO) = Ok (VDatetime (midnight 738084)) ∧
  @as_date G (VStr "2021-01-01") (Some ISO) = Ok (VDatetime (midnight 737791)) ∧
  py_sub_days (VDatetime (midnight 738084)) (VDatetime (midnight 737791)) = Ok 293 ∧
  293 ≤ 365 ∧
  @requests_get G (VStr "2021-01-01") (VStr "2021-10-21") = Response 200 (Some (JObj fields)) ∧
  ¬ (400 ≤ 200 < 600) ∧
  @get_exr_366_days G (VStr "2021-01-01") (VStr "2021-10-21")
  = ([{| date := "2021-01-01"; currency := "USD"; rate := 1 |}], None).
Proof.
  intros G fields.
  assert (@as_date G (VStr "2021-10-21") (Some ISO) = Ok (VDatetime (midnight 738084))) as He
    by (vm_compute; reflexivity).
  assert (@as_date G (VStr "2021-01-01") (Some ISO) = Ok (VDatetime (midnight 737791))) as Hs
    by (vm_compute; reflexivity).
  assert (py_sub_days (VDatetime (midnight 738084)) (VDatetime (midnight 737791)) = Ok 293)
    as Hspan by reflexivity.
  assert (@requests_get G (VStr "2021-01-01") (VStr "2021-10-21")
          = Response 200 (Some (JObj fields))) as Hget by reflexivity.
  assert (¬ (400 ≤ 200 < 600)) as Hstatus by lia.
  split; [exact He|]. split; [exact Hs|]. split; [exact Hspan|]. split; [lia|].
  split; [exact Hget|]. split; [exact Hstatus|].
  assert (∀ d c : string * _, d ∈ [("2021-01-01", [("USD", 1%Q)])] → c ∈ d.2 →
            @float_of_num G c.2 = Some c.2) as Hfloat.
  { intros d c ->%list_elem_of_singleton ->%list_elem_of_singleton.
    vm_compute. reflexivity. }
  exact (@get_exr_366_days_rows G _ _ _ _ _ _ fields [("2021-01-01", [("USD", 1%Q)])]
           (λ q, q) He Hs Hspan ltac:(lia) Hget Hstatus eq_refl Hfloat).
Defined.

(** What [float] makes of the rates served: the integer [2^53 + 1]
becomes the double [2^53], and on the integer [10^400] the fetch raises
[OverflowError], after the row before it and without the row after. *)
Example rates_are_doubles :
  @get_exr_366_days
    (Gregorian.runtime
       (λ _ _, Response 200 (Some (JObj [("rates", JObj [
          ("2023-01-01", JObj [("USD", JNum (Qmake (2 ^ 53 + 1) 1));
                               ("EUR", JNum (Qmake (10 ^ 400) 1));
                               ("GBP", JNum 1)])])]))))
    (VStr "2023-01-01") (VStr "2023-01-03")
  = ([{| date := "2023-01-01"; currency := "USD"; rate := Qmake (2 ^ 53) 1 |}],
     Some OverflowError).
Proof. vm_compute. reflexivity. Qed.

Lemma get_exr_366_days_malformed_witness :
  let G := Gregorian.runtime
             (λ _ _, Response 200 (Some (JObj [("error", JStr "no rates today")]))) in
  @requests_get G (VStr "2023-01-01") (VStr "2023-01-03")
  = Response 200 (Some (JObj [("error", JStr "no rates today")])) ∧
  (@get_exr_366_days G (VStr "2023-01-01") (VStr "2023-01-03")).1 = [] ∧
  (@get_exr_366_days G (VStr "2023-01-01") (VStr "2023-01-03")).2 ≠ None.
Proof.
  intros G. split; [reflexivity|].
  apply (@get_exr_366_days_malformed G _ _ 200
           (Some (JObj [("error", JStr "no rates today")]))); [reflexivity|].
  intros fields days [= <-]. discriminate.
Defined.

(** ** The orchestrator over a range of days *)

Section orchestrator.
Context `{!Runtime}.
Variables (start_date end_date : string) (a b : Z).
Hypothesis Hrange : range_ok start_date end_date a b.

Lemma fetch_each_rows ws :
  rows (fetch_each ws) = fetched_rows (fetches (fetch_each ws)).
Proof.
  induction ws as [|w ws IH]; [done|].
  cbn [fetch_each]. destruct (get_exr_366_days w.1 w.2).2;
    cbn [rows fetches]; unfold fetched_rows; cbn [fmap list_fmap concat].
  - by rewrite app_nil_r.
  - by rewrite IH.
Qed.

Lemma planned_windows_one_day : a = b → planned_windows start_date end_date = [].
Proof.
  intros. destruct (decide (planned_windows start_date end_date = [])) as [|Hne]; [done|].
  by apply (planned_windows_nonempty _ _ _ _ Hrange) in Hne.
Qed.

Lemma one_day_run :
  a = b →
  n_cuts start_date end_date = Ok 0 ∧
  get_exr_timeseries start_date end_date = Run [] None [].
Proof.
  intros <-. destruct Hrange as (Hs & He & _).
  assert (n_cuts start_date end_date = Ok 0) as Hn.
  { unfold n_cuts, as_date. rewrite Hs, He. cbn [mbind result_bind py_sub_days].
    by rewrite !Z.sub_diag, Zdiv_0_l. }
  split; [done|]. unfold get_exr_timeseries. by rewrite Hn.
Qed.

(** X11. The rows that the consumer sees are the rows that the fetches
made have yielded, fetch after fetch and in the order each fetch yielded
them; the fetches made are the first of the planned windows, and all of
them in a run that ends without an error. *)
Theorem rows_are_forwarded :
  a ≤ b →
  rows (get_exr_timeseries start_date end_date)
  = fetched_rows (fetches (get_exr_timeseries start_date end_date)) ∧
  fetches (get_exr_timeseries start_date end_date)
    `prefix_of` planned_windows start_date end_date ∧
  (raised (get_exr_timeseries start_date end_date) = None →
   fetches (get_exr_timeseries start_date end_date) = planned_windows start_date end_date).
Proof.
  intros Hab. destruct (decide (a = b)) as [Heq|Hne].
  - rewrite (planned_windows_one_day Heq).
    destruct (one_day_run Heq) as (_ & ->). done.
  - destruct (run_samples _ _ _ _ Hrange ltac:(lia)) as (c & _ & _ & _ & _ & _ & _ & Hrun & Hplan).
    rewrite Hrun, Hplan. split; [apply fetch_each_rows|].
    destruct (fetch_each_prefix (day_pair <$> windows (a :: c))) as [Hprefix Hnone].
    split; [done|]. intros Hr. by destruct (Hnone Hr) as [-> _].
Qed.

(** X12. The run makes at most [n_cuts] fetches. *)
Theorem at_most_n_cuts_fetches :
  a ≤ b →
  ∃ n, n_cuts start_date end_date = Ok n ∧
       Z.of_nat (length (fetches (get_exr_timeseries start_date end_date))) ≤ n.
Proof.
  intros Hab. destruct (decide (a = b)) as [Heq|Hne].
  - destruct (one_day_run Heq) as (-> & ->). by exists 0.
  - destruct (run_samples _ _ _ _ Hrange ltac:(lia))
      as (c & _ & _ & _ & _ & _ & Hpairs & Hrun & _).
    pose proof (ceil_div_pos (b - a) 365 ltac:(lia) ltac:(lia)) as Hn.
    exists (ceil_div (b - a) 365). rewrite (n_cuts_range _ _ _ _ Hrange), Z.abs_eq by lia.
    split; [done|]. rewrite Hrun.
    destruct (fetch_each_prefix (day_pair <$> windows (a :: c))) as [Hprefix _].
    apply prefix_length in Hprefix. rewrite length_fmap, windows_length in Hprefix.
    cbn [tail] in Hprefix.
    unfold generate_date_pairs in Hpairs.
    rewrite (generate_date_range_whole _ _ _ _ Hrange) in Hpairs by lia.
    pose proof (pairs_length_bound
                  (day <$> count_from a 1 (Z.to_nat (b - a + 1))) (ceil_div (b - a) 365)
                  ltac:(lia)) as Hmost.
    rewrite Hpairs in Hmost. cbn [fst] in Hmost. rewrite length_fmap in Hmost. lia.
Qed.



End orchestrator.

(** ** The window limit on ranges under 133590 days *)






Section window_limit.
Context `{!Runtime}.
Variables (start_date end_date : string) (a b : Z).
Hypothesis Hrange : range_ok start_date end_date a b.

End window_limit.

(** ** Runs of the orchestrator on the calendar *)

Lemma rows_are_forwarded_witness :
  let G := Gregorian.runtime Service.exact in
  let r := @get_exr_timeseries G "2023-01-01" "2024-06-15" in
  @range_ok G "2023-01-01" "2024-06-15" 738521 739052 ∧
  738521 ≤ 739052 ∧
  rows r = @fetched_rows G (fetches r) ∧
  fetches r `prefix_of` @planned_windows G "2023-01-01" "2024-06-15" ∧
  (raised r = None → fetches r = @planned_windows G "2023-01-01" "2024-06-15").
Proof.
  intros G r.
  assert (@range_ok G "2023-01-01" "2024-06-15" 738521 739052) as Hr.
  { apply gregorian_range_ok; [vm_compute; reflexivity..|unfold MINORDINAL; lia|unfold MAXORDINAL; lia]. }
  split; [exact Hr|]. split; [lia|].
  exact (@rows_are_forwarded G _ _ _ _ Hr ltac:(lia)).
Defined.

Lemma at_most_n_cuts_fetches_witness :
  let G := Gregorian.runtime Service.exact in
  @range_ok G "2023-01-01" "2024-06-15" 738521 739052 ∧
  738521 ≤ 739052 ∧
  ∃ n, @n_cuts G "2023-01-01" "2024-06-15" = Ok n ∧
       Z.of_nat (length (fetches (@get_exr_timeseries G "2023-01-01" "2024-06-15"))) ≤ n.
Proof.
  intros G.
  assert (@range_ok G "2023-01-01" "2024-06-15" 738521 739052) as Hr.
  { apply gregorian_range_ok; [vm_compute; reflexivity..|unfold MINORDINAL; lia|unfold MAXORDINAL; lia]. }
  split; [exact Hr|]. split; [lia|].
  exact (@at_most_n_cuts_fetches G _ _ _ _ Hr ltac:(lia)).
Defined.




(** ** Endpoints that are not dates, and ranges that run backwards *)

Section endpoints.
Context `{!Runtime}.

(** X16. When an endpoint is text that does not parse in the default
pattern, the Date Range Sequencer yields nothing and raises [ValueError],
and so does the run, before any fetch. *)
Theorem unparsable_endpoint start_date end_date :
  strptime start_date ISO = None ∨ strptime end_date ISO = None →
  generate_date_range (VStr start_date) (VStr end_date) (Some ISO) = raise ValueError ∧
  get_exr_timeseries start_date end_date = Run [] (Some ValueError) [].
Proof.
  intros Hbad. unfold get_exr_timeseries, n_cuts, generate_date_range, as_date.
  destruct (strptime start_date ISO) as [s|], (strptime end_date ISO) as [e|];
    try done.
  by destruct Hbad.
Qed.
End endpoints.

Lemma unparsable_endpoint_witness :
  let G := Gregorian.runtime Service.exact in
  (@strptime G "2023-02-30" ISO = None ∨ @strptime G "2023-03-01" ISO = None) ∧
  @generate_date_range G (VStr "2023-02-30") (VStr "2023-03-01") (Some ISO) = raise ValueError ∧
  @get_exr_timeseries G "2023-02-30" "2023-03-01" = Run [] (Some ValueError) [].
Proof.
  intros G.
  assert (@strptime G "2023-02-30" ISO = None ∨ @strptime G "2023-03-01" ISO = None) as Hbad
    by (left; vm_compute; reflexivity).
  split; [exact Hbad|]. exact (@unparsable_endpoint G _ _ Hbad).
Defined.





Section reversed.
Context `{!Runtime}.


Variables (start_date end_date : string) (a b : Z).
Hypothesis Hrange : range_ok end_date start_date b a.
Hypothesis Hback : b < a.





End reversed.


(** What the run of the witness above fetches: the first window runs
from the start day down to the day before the boundary, the second from
the boundary down to the end day; 2023-09-22 and 2023-09-23 lie in
both. *)
Example two_windows_backwards :
  fetches (@get_exr_timeseries (Gregorian.runtime Service.empty) "2024-06-15" "2023-01-01")
  = [(VStr "2024-06-15", VStr "2023-09-22"); (VStr "2023-09-23", VStr "2023-01-01")].
Proof. vm_compute. reflexivity. Qed.

(** ** The ceiling of a quotient, through the double

    [ceil(a / b)] rounds the quotient to a double before it takes the
    ceiling.  With a numerator below [2^53] the rounding moves the
    quotient across no integer but zero. *)

Lemma nearest_even_close num den :
  0 < den →
  2 * (num - Double.nearest_even num den * den) ≤ den ∧
  2 * (Double.nearest_even num den * den - num) ≤ den.
Proof.
  intros Hden. unfold Double.nearest_even.
  pose proof (Z.div_mod num den ltac:(lia)) as Hdiv.
  pose proof (Z.mod_pos_bound num den Hden) as Hmod.
  set (k := num `div` den) in *. set (r := num `mod` den) in *.
  destruct (Z.ltb_spec (2 * r) den); [nia|].
  destruct (Z.ltb_spec den (2 * r)); [nia|].
  destruct (Z.even k); nia.
Qed.

Lemma exponent_lower p d :
  0 < p → 0 < d →
  (0 ≤ Double.exponent p d → d * 2 ^ Double.exponent p d ≤ p) ∧
  (Double.exponent p d < 0 → d ≤ p * 2 ^ (- Double.exponent p d)).
Proof.
  intros Hp Hd. unfold Double.exponent.
  pose proof (Z.log2_spec p Hp) as [Hp1 Hp2]. pose proof (Z.log2_spec d Hd) as [Hd1 Hd2].
  pose proof (Z.log2_nonneg p). pose proof (Z.log2_nonneg d).
  set (lp := Z.log2 p) in *. set (ld := Z.log2 d) in *.
  destruct (Z.leb_spec 0 (lp - ld)) as [He|He].
  - destruct (Z.leb_spec (d * 2 ^ (lp - ld)) p) as [Hc|Hc]; [split; lia|].
    (* the exponent is lp - ld - 1 *)
    replace (Z.succ ld) with (ld + 1) in Hd2 by lia. rewrite Z.pow_add_r in Hd2 by lia.
    split; intros He'.
    + assert (2 ^ lp = 2 ^ ld * 2 * 2 ^ (lp - ld - 1)) as Hlp.
      { rewrite <- Z.mul_assoc, <- (Z.pow_succ_r 2 (lp - ld - 1)), <- Z.pow_add_r by lia.
        f_equal. lia. }
      pose proof (Z.pow_pos_nonneg 2 (lp - ld - 1) ltac:(lia) ltac:(lia)). nia.
    + assert (lp = ld) as Heq by lia. rewrite Heq in *.
      replace (- (ld - ld - 1)) with 1 by lia. change (2 ^ 1) with 2. lia.
  - destruct (Z.leb_spec d (p * 2 ^ (- (lp - ld)))) as [Hc|Hc]; [split; lia|].
    split; [lia|]. intros _.
    replace (Z.succ ld) with (lp + (- (lp - ld - 1))) in Hd2 by lia.
    rewrite Z.pow_add_r in Hd2 by lia.
    pose proof (Z.pow_pos_nonneg 2 (- (lp - ld - 1)) ltac:(lia) ltac:(lia)). nia.
Qed.

Lemma ceil_div_divmod p d :
  0 < d → ceil_div p d = if p `mod` d =? 0 then p `div` d else p `div` d + 1.
Proof.
  intros Hd. unfold ceil_div.
  pose proof (Z.div_mod p d ltac:(lia)) as Hdiv.
  pose proof (Z.mod_pos_bound p d Hd) as Hmod.
  destruct (Z.eqb_spec (p `mod` d) 0) as [Hr|Hr].
  - assert ((- p) `div` d = - (p `div` d)); [|lia].
    symmetry. apply (Z.div_unique_pos (- p) d (- (p `div` d)) 0); lia.
  - assert ((- p) `div` d = - (p `div` d) - 1); [|lia].
    symmetry. apply (Z.div_unique_pos (- p) d (- (p `div` d) - 1) (d - p `mod` d)); lia.
Qed.

(** The nearest integer [m] to [p * S / d], against the quotient [k]
and the remainder [r] of [p] by [d]. *)
Lemma nearest_between p d S m k r :
  0 < d → 0 < S → p = d * k + r → 0 ≤ r < d →
  2 * (p * S - m * d) ≤ d → 2 * (m * d - p * S) ≤ d →
  (r = 0 → m = k * S) ∧
  (d < 2 * r * S → k * S < m) ∧
  (d < 2 * (d - r) * S → m < (k + 1) * S).
Proof.
  intros Hd HS -> Hr H1 H2.
  replace ((d * k + r) * S - m * d) with (d * (k * S - m) + r * S) in H1 by ring.
  replace (m * d - (d * k + r) * S) with (d * (m - k * S) - r * S) in H2 by ring.
  repeat split.
  - intros ->. rewrite Z.mul_0_l, ?Z.add_0_r, ?Z.sub_0_r in *.
    destruct (Z.lt_trichotomy m (k * S)) as [?|[?|?]]; [|done|].
    + assert (d * 1 ≤ d * (k * S - m)) by (apply Z.mul_le_mono_nonneg_l; lia). lia.
    + assert (d * 1 ≤ d * (m - k * S)) by (apply Z.mul_le_mono_nonneg_l; lia). lia.
  - intros Hup. destruct (Z.lt_ge_cases (k * S) m) as [?|Hle]; [done|].
    assert (0 ≤ d * (k * S - m)) by (apply Z.mul_nonneg_nonneg; lia). lia.
  - intros Hdown. destruct (Z.lt_ge_cases m ((k + 1) * S)) as [?|Hge]; [done|].
    assert (d * S ≤ d * (m - k * S)) by (apply Z.mul_le_mono_nonneg_l; lia).
    replace (2 * (d - r) * S) with (2 * (d * S) - 2 * (r * S)) in Hdown by ring. lia.
Qed.

(** In the normal range the ulp is at most [2 / d]. *)
Lemma normal_ulp p d :
  0 < p < 2 ^ 53 → 0 < d → Double.exponent p d - 52 < 0 →
  d < 2 * 2 ^ (- (Double.exponent p d - 52)).
Proof.
  intros Hp Hd Hu.
  destruct (exponent_lower p d ltac:(lia) Hd) as [Hnonneg Hneg].
  set (e := Double.exponent p d) in *.
  destruct (Z.leb_spec 0 e) as [He|He].
  - specialize (Hnonneg He). replace (- (e - 52)) with (52 - e) by lia.
    assert (2 ^ 53 = 2 ^ e * (2 * 2 ^ (52 - e))) as H53.
    { rewrite <- (Z.pow_succ_r 2 (52 - e)), <- Z.pow_add_r by lia. f_equal. lia. }
    pose proof (Z.pow_pos_nonneg 2 e ltac:(lia) He) as He2.
    set (E := 2 ^ e) in *. set (F := 2 * 2 ^ (52 - e)) in *.
    destruct (Z.lt_ge_cases d F) as [?|Hge]; [done|].
    assert (E * F ≤ E * d) by (apply Z.mul_le_mono_nonneg_l; lia). lia.
  - specialize (Hneg He). replace (- (e - 52)) with (52 + - e) by lia.
    rewrite Z.pow_add_r by lia.
    pose proof (Z.pow_pos_nonneg 2 (- e) ltac:(lia) ltac:(lia)) as He2.
    set (E := 2 ^ (- e)) in *.
    assert (p * E < 2 ^ 53 * E) by (apply Z.mul_lt_mono_pos_r; lia).
    change (2 ^ 52) with 4503599627370496. change (2 ^ 53) with 9007199254740992 in *. lia.
Qed.

(** Below the normal range, a quotient that rounds to zero has its ulp
at [2^-1074]. *)
Lemma tiny_is_subnormal p d :
  0 < p → 0 < d → 2 ^ 1075 * p ≤ d → Double.exponent p d - 52 < -1074.
Proof.
  intros Hp Hd Htiny.
  destruct (exponent_lower p d Hp Hd) as [Hnonneg Hneg].
  set (e := Double.exponent p d) in *.
  destruct (Z.lt_ge_cases (e - 52) (-1074)) as [?|Hge]; [done|]. exfalso.
  assert (1 < 2 ^ 1075) as Hone by (vm_compute; reflexivity).
  destruct (Z.leb_spec 0 e) as [He|He].
  - specialize (Hnonneg He).
    pose proof (Z.pow_pos_nonneg 2 e ltac:(lia) He) as He2.
    assert (d * 1 ≤ d * 2 ^ e) by (apply Z.mul_le_mono_nonneg_l; lia).
    assert (1 * p < 2 ^ 1075 * p) by (apply Z.mul_lt_mono_pos_r; lia). lia.
  - specialize (Hneg He).
    assert (2 ^ (- e) ≤ 2 ^ 1022) as Hpow by (apply Z.pow_le_mono_r; lia).
    assert (2 ^ 1022 < 2 ^ 1075) as Hlt by (vm_compute; reflexivity).
    assert (p * 2 ^ (- e) ≤ p * 2 ^ 1022) by (apply Z.mul_le_mono_nonneg_l; lia).
    assert (p * 2 ^ 1022 < p * 2 ^ 1075) by (apply Z.mul_lt_mono_pos_l; lia).
    lia.
Qed.

Lemma small_quotient p d k r : 0 < p < d → p = d * k + r → 0 ≤ r < d → k = 0.
Proof.
  intros Hp -> Hr. destruct (Z.lt_trichotomy k 0) as [Hneg|[?|Hpos]]; [|done|].
  - assert (d * k ≤ d * (-1)) by (apply Z.mul_le_mono_nonneg_l; lia). lia.
  - assert (d * 1 ≤ d * k) by (apply Z.mul_le_mono_nonneg_l; lia). lia.
Qed.

(** A quotient of at most half the smallest double rounds to zero. *)
Lemma nearest_even_tiny p d T : 0 < p → 0 < T → 2 * (p * T) ≤ d → Double.nearest_even (p * T) d = 0.
Proof.
  intros Hp HT Htiny. assert (0 < p * T) by (apply Z.mul_pos_pos; lia).
  unfold Double.nearest_even. rewrite Z.div_small, Z.mod_small by lia.
  destruct (Z.ltb_spec (2 * (p * T)) d); [done|].
  destruct (Z.ltb_spec d (2 * (p * T))); [lia|done].
Qed.

(** Rounding a quotient with a numerator below [2^53] to a double does
not move it across an integer, except down to zero. *)
Lemma of_positive_small p d :
  0 < p < 2 ^ 53 → 0 < d →
  ∃ v, Double.of_positive p d = Some v ∧
       Qfloor v = p `div` d ∧
       Qceiling v = if p * UNDERFLOW <=? d then 0 else ceil_div p d.
Proof.
  intros Hp Hd. unfold Double.of_positive.
  pose proof (Z.div_mod p d ltac:(lia)) as Hdiv.
  pose proof (Z.mod_pos_bound p d Hd) as Hmod.
  destruct (Z.leb_spec 0 (Z.max (Double.exponent p d - 52) (-1074))) as [Hu|Hu].
  - (* at least 2^52: the quotient is the integer [p] *)
    destruct (exponent_lower p d ltac:(lia) Hd) as [Hnonneg _].
    set (e := Double.exponent p d) in *.
    assert (0 ≤ e) as He by lia. specialize (Hnonneg He).
    pose proof (Z.pow_pos_nonneg 2 e ltac:(lia) He) as He2.
    assert (e < 53) as He53.
    { apply (Z.pow_lt_mono_r_iff 2); [lia..|].
      assert (1 * 2 ^ e ≤ d * 2 ^ e) by (apply Z.mul_le_mono_nonneg_r; lia). lia. }
    assert (e = 52) as -> by lia.
    assert (d = 1) as -> by (change (2 ^ 52) with 4503599627370496 in *; lia).
    change (Z.max (52 - 52) (-1074)) with 0. change (2 ^ 0) with 1.
    assert (Double.nearest_even p (1 * 1) = p) as ->.
    { unfold Double.nearest_even. change (1 * 1) with 1.
      by rewrite Z.div_1_r, Z.mod_1_r. }
    assert (2 ^ 53 < 2 ^ 1024) as H1024 by (vm_compute; reflexivity).
    pose proof UNDERFLOW_large as Hlarge.
    rewrite Z.mul_1_r.
    rewrite (proj2 (Z.leb_gt (2 ^ 1024) p)) by lia.
    eexists. split; [done|].
    assert (1 * UNDERFLOW ≤ p * UNDERFLOW) by (apply Z.mul_le_mono_nonneg_r; lia).
    rewrite (proj2 (Z.leb_gt _ _)) by lia.
    unfold Qceiling, Qfloor. cbn [Qopp Qnum Qden]. rewrite !Z.div_1_r.
    split; [done|]. rewrite (ceil_div_divmod p 1), Z.mod_1_r, Z.div_1_r by lia. cbn. lia.
  - set (u := Z.max (Double.exponent p d - 52) (-1074)) in *.
    pose proof (Z.pow_pos_nonneg 2 (- u) ltac:(lia) ltac:(lia)) as HS.
    destruct (nearest_even_close (p * 2 ^ (- u)) d Hd) as [Hclose1 Hclose2].
    eexists. split; [done|].
    assert (∀ x, Qfloor (Qred x) = Qfloor x) as Hfloor
      by (intros x; apply Qfloor_comp, Qred_correct).
    assert (∀ x, Qceiling (Qred x) = Qceiling x) as Hceil
      by (intros x; apply Qceiling_comp, Qred_correct).
    rewrite Hfloor, Hceil. unfold Qceiling, Qfloor. cbn [Qopp Qnum Qden].
    rewrite Z2Pos.id by done.
    rewrite ceil_div_divmod by done.
    (* the bounds on [d] that keep the rounding from crossing an integer *)
    assert (2 ^ (- u) = 2 ^ 1074 ∨ d < 2 * 2 ^ (- u)) as Hulp.
    { destruct (decide (u = -1074)) as [->|]; [by left|right].
      assert (u = Double.exponent p d - 52) as -> by lia. apply normal_ulp; lia. }
    assert (2 ^ 1075 * p ≤ d → 2 ^ (- u) = 2 ^ 1074) as Htiny.
    { intros Htiny%tiny_is_subnormal; [|lia..]. by replace u with (-1074) by lia. }
    assert (UNDERFLOW = 2 * 2 ^ 1074) as HU by (vm_compute; reflexivity).
    assert (2 ^ 54 < 2 ^ 1074) as H1074 by (vm_compute; reflexivity).
    change (2 ^ 1075) with UNDERFLOW in Htiny.
    change (2 ^ 53) with 9007199254740992 in Hp. change (2 ^ 54) with 18014398509481984 in H1074.
    assert (p * UNDERFLOW ≤ d → Double.nearest_even (p * 2 ^ (- u)) d = 0) as Hzero.
    { intros Hunder. rewrite Htiny by lia. apply nearest_even_tiny; [lia..|].
      replace (2 * (p * 2 ^ 1074)) with (p * UNDERFLOW) by (rewrite HU; ring). done. }
    set (m := Double.nearest_even (p * 2 ^ (- u)) d) in *.
    set (S := 2 ^ (- u)) in *. set (T := 2 ^ 1074) in *.
    set (k := p `div` d) in *. set (r := p `mod` d) in *.
    clearbody m S T k r. clear Hfloor Hceil u Hu.
    destruct (nearest_between p d S m k r Hd HS Hdiv Hmod Hclose1 Hclose2)
      as (Hexact & Hup & Hdown).
    assert (r ≠ 0 → d < 2 * (d - r) * S) as Hdown'.
    { intros Hr. destruct Hulp as [->|Hulp].
      - destruct (Z.le_gt_cases d 18014398509481984) as [Hsmall|Hbig].
        + assert (1 * T ≤ (d - r) * T) by (apply Z.mul_le_mono_nonneg_r; lia). lia.
        + assert (k = 0) as -> by (apply (small_quotient p d k r); lia).
          assert (18014398509481984 * (d - r) < T * (d - r))
            by (apply Z.mul_lt_mono_pos_r; lia).
          lia.
      - assert (1 * S ≤ (d - r) * S) by (apply Z.mul_le_mono_nonneg_r; lia). lia. }
    destruct (Z.leb_spec (p * UNDERFLOW) d) as [Hunder|Hover].
    + (* the quotient rounds to zero *)
      rewrite (Hzero Hunder).
      assert (1 * p < T * p) by (apply Z.mul_lt_mono_pos_r; lia).
      assert (k = 0) as -> by (apply (small_quotient p d k r); lia).
      by rewrite Z.opp_0, !Zdiv_0_l.
    + destruct (Z.eqb_spec r 0) as [Hr|Hr].
      * rewrite (Hexact Hr). rewrite Z.div_mul by lia. split; [done|].
        replace (- (k * S)) with (- k * S) by lia. rewrite Z.div_mul by lia. lia.
      * assert (d < 2 * r * S) as Hup'.
        { destruct Hulp as [->|Hulp].
          - destruct (Z.le_gt_cases d p) as [Hsmall|Hbig].
            + assert (1 * T ≤ r * T) by (apply Z.mul_le_mono_nonneg_r; lia). lia.
            + assert (k = 0) as -> by (apply (small_quotient p d k r); lia).
              assert (r = p) as -> by lia.
              replace (p * UNDERFLOW) with (2 * p * T) in Hover by (rewrite HU; ring). done.
          - assert (1 * S ≤ r * S) by (apply Z.mul_le_mono_nonneg_r; lia). lia. }
        specialize (Hup Hup'). specialize (Hdown (Hdown' Hr)).
        split.
        -- symmetry. apply (Z.div_unique_pos m S k (m - k * S)); lia.
        -- assert ((- m) `div` S = - (k + 1)); [|lia].
           symmetry. apply (Z.div_unique_pos (- m) S (- (k + 1)) ((k + 1) * S - m)); lia.
Qed.

(** X18. [ceil(a / b)] through the double: for [0 <= a < 2^53] and [b]
not zero, the quotient [a / b] is a double (no overflow) and its ceiling
is zero when the quotient is positive and rounds to zero, and the
ceiling of the exact quotient otherwise. *)
Theorem py_ceil_div_double a b :
  0 ≤ a < 2 ^ 53 → b ≠ 0 →
  Qceiling <$> Double.true_div a b = Some (py_ceil_div a b).
Proof.
  intros Ha Hb. unfold Double.true_div, py_ceil_div, rounds_to_zero.
  rewrite (proj2 (Z.ltb_ge a 0)) by lia. rewrite andb_false_l, orb_false_r.
  destruct (decide (a = 0)) as [->|Hne].
  { cbn [Z.opp Z.ltb Z.compare andb]. rewrite ceil_div_zero.
    by destruct (0 <? b). }
  rewrite (proj2 (Z.ltb_lt 0 a)) by lia. rewrite andb_true_l.
  destruct (Z.ltb_spec 0 b) as [Hpos|Hneg].
  - destruct (of_positive_small a b ltac:(lia) Hpos) as (v & Hv & _ & Hceil).
    unfold Double.round. cbn [Qnum Qden]. rewrite Z2Pos.id by done.
    destruct a as [|p|p]; [lia| |lia].
    by rewrite Hv, <- Hceil.
  - destruct (of_positive_small a (- b) ltac:(lia) ltac:(lia)) as (v & Hv & Hfloor & _).
    unfold Double.round. cbn [Qnum Qden]. rewrite Z2Pos.id by lia.
    destruct a as [|p|p]; [lia| |lia].
    change (- Z.pos p) with (Z.neg p). cbv iota. rewrite Hv.
    cbn [fmap option_fmap option_map]. f_equal.
    assert ((Z.pos p * UNDERFLOW <=? b) = false) as ->.
    { apply Z.leb_gt. pose proof UNDERFLOW_large.
      assert (0 < Z.pos p * UNDERFLOW) by (apply Z.mul_pos_pos; lia). lia. }
    unfold Qceiling. rewrite (Qfloor_comp (Qopp (Qopp v)) v) by apply Qopp_involutive.
    rewrite Hfloor. unfold ceil_div.
    rewrite <- (Z.opp_involutive b) at 2. by rewrite Z.div_opp_opp by lia.
Qed.

Lemma py_ceil_div_double_witness :
  (0 ≤ 5 < 2 ^ 53 ∧ 10 ^ 400 ≠ 0 ∧ Qceiling <$> Double.true_div 5 (10 ^ 400) = Some 0) ∧
  (0 ≤ 133591 < 2 ^ 53 ∧ 366 ≠ 0 ∧ Qceiling <$> Double.true_div 133591 366 = Some 366).
Proof.
  assert (10 ^ 400 ≠ 0) as Hhuge by (vm_compute; discriminate).
  split.
  - split; [lia|]. split; [exact Hhuge|].
    rewrite (py_ceil_div_double 5 (10 ^ 400)); [vm_compute; reflexivity|lia|exact Hhuge].
  - split; [lia|]. split; [lia|].
    rewrite (py_ceil_div_double 133591 366); [vm_compute; reflexivity|lia|lia].
Defined.
